(** * elfdeps: dependency extraction from ELF objects

    A shallow embedding of [tools/elfdeps.c] and the properties of its
    dependency strings.  The libelf accessors, the C library string
    functions and rpm's own string helpers are modelled first; the
    functions of [elfdeps.c] follow in source order, under their own
    names. *)

From Stdlib Require Import ZArith List String Ascii Bool Lia.
Import ListNotations.

Local Open Scope string_scope.
Local Open Scope list_scope.
Local Open Scope Z_scope.

Set Implicit Arguments.

(* ================================================================= *)
(** ** Outcomes of a C computation *)

(** A computation either returns a value or leaves the defined behaviour
    of C: [elfdeps.c] divides by a section header field and counts with
    signed integers, and both can go wrong on a hostile object. *)
Inductive outcome (A : Type) : Type :=
| Ret (a : A)
| Undefined.

Arguments Ret {A} a.
Arguments Undefined {A}.

Definition bind {A B : Type} (m : outcome A) (k : A -> outcome B) : outcome B :=
  match m with
  | Ret a => k a
  | Undefined => Undefined
  end.

Notation "'let*' x ':=' m 'in' k" := (bind m (fun x => k))
  (at level 10, x name, m at level 100, k at level 200).

(** Monadic left fold: the shape of every [while ((x = next(x)) != NULL)]
    loop of the program. *)
Fixpoint foldM {A S : Type} (f : S -> A -> outcome S) (s : S) (l : list A)
  : outcome S :=
  match l with
  | [] => Ret s
  | a :: l' => let* s' := f s a in foldM f s' l'
  end.

(* ================================================================= *)
(** ** Machine integers *)

Module CInt.

Definition INT_MAX : Z := 2147483647.
Definition INT_MIN : Z := -2147483648.
Definition UINT_MOD : Z := 4294967296.

(** [unsigned int] arithmetic wraps around. *)
Definition uadd (a b : Z) : Z := (a + b) mod UINT_MOD.

(** Conversion of a 32-bit unsigned value to [int] (two's complement). *)
Definition to_int (u : Z) : Z :=
  let w := u mod UINT_MOD in
  if w <=? INT_MAX then w else w - UINT_MOD.

End CInt.

(* ================================================================= *)
(** ** C library string functions *)

Module Libc.

Definition code (c : ascii) : Z := Z.of_N (N_of_ascii c).

(** [strstr]: the suffix of [haystack] that starts at the first
    occurrence of [needle], or NULL. *)
Fixpoint strstr (haystack needle : string) : option string :=
  if prefix needle haystack then Some haystack
  else match haystack with
       | EmptyString => None
       | String _ rest => strstr rest needle
       end.

(** [strncmp]: compares at most [n] characters, the terminator
    included. *)
Fixpoint strncmp (s1 s2 : string) (n : nat) {struct n} : Z :=
  match n with
  | O => 0
  | S n' =>
      match s1, s2 with
      | EmptyString, EmptyString => 0
      | EmptyString, String c2 _ => 0 - code c2
      | String c1 _, EmptyString => code c1 - 0
      | String c1 r1, String c2 r2 =>
          if Ascii.eqb c1 c2 then strncmp r1 r2 n' else code c1 - code c2
      end
  end.

(** [strrchr]: the suffix of [s] that starts at the last occurrence of
    [c], or NULL. *)
Fixpoint strrchr (s : string) (c : ascii) : option string :=
  match s with
  | EmptyString => None
  | String d rest =>
      match strrchr rest c with
      | Some r => Some r
      | None => if Ascii.eqb d c then Some s else None
      end
  end.

(** The [%s] fragment of the [printf] family: each [%s] consumes one
    argument, every other character is copied. *)
Fixpoint sprintf (fmt : string) (args : list string) : string :=
  match fmt with
  | EmptyString => EmptyString
  | String "%" (String "s" rest) =>
      match args with
      | a :: args' => (a ++ sprintf rest args')%string
      | [] => sprintf rest []
      end
  | String c rest => String c (sprintf rest args)
  end.

End Libc.

(* ================================================================= *)
(** ** rpm's string and argv helpers *)

Module Rpmstring.

(** Modelled from the spec: [risblank] and [risspace] are declared in
    [rpm/rpmstring.h], which is not part of the sources at hand.  The
    spec speaks of whitespace; this is the locale-independent class of
    blank, tab, newline, carriage return, form feed and vertical tab. *)
Definition risblank (c : ascii) : bool :=
  (Ascii.eqb c " " || Ascii.eqb c "009")%bool.

(** Modelled from the spec: [risspace] of [rpm/rpmstring.h], the white
    space of "empty or consists only of whitespace". *)
Definition risspace (c : ascii) : bool :=
  (risblank c || Ascii.eqb c "010" || Ascii.eqb c "013"
   || Ascii.eqb c "012" || Ascii.eqb c "011")%bool.

(** Modelled from the spec: [rstreqn] of [rpm/rpmstring.h] tests that
    the first [n] characters of two strings agree; the spec calls it
    "starts with". *)
Definition rstreqn (s1 s2 : string) (n : nat) : bool :=
  Libc.strncmp s1 s2 n =? 0.

(** Modelled from the spec: [rasprintf] of [rpm/rpmstring.h] allocates
    the formatted string. *)
Definition rasprintf (fmt : string) (args : list string) : string :=
  Libc.sprintf fmt args.

End Rpmstring.

Module Argv.

(** An [ARGV_t] is a NULL-terminated array of strings. *)
Definition ARGV_t : Type := list string.

(** Modelled from the spec: [argvAdd] of [rpm/argv.h] appends a copy of
    the string: the sequences are ordered, keep duplicates, and
    insertion order is discovery order. *)
Definition argvAdd (argv : ARGV_t) (val : string) : ARGV_t :=
  argv ++ [val].

End Argv.

(* ================================================================= *)
(** ** Constants of <elf.h>, <libelf.h> and <sys/stat.h> *)

Module ElfH.

Definition EI_CLASS : nat := 4.
Definition EI_DATA : nat := 5.
Definition ELFCLASS64 : Z := 2.
Definition ELFDATA2LSB : Z := 1.
Definition ELFDATA2MSB : Z := 2.

Definition ET_EXEC : Z := 2.
Definition ET_DYN : Z := 3.

Definition EM_SPARC : Z := 2.
Definition EM_386 : Z := 3.
Definition EM_68K : Z := 4.
Definition EM_MIPS : Z := 8.
Definition EM_PARISC : Z := 15.
Definition EM_SPARC32PLUS : Z := 18.
Definition EM_PPC : Z := 20.
Definition EM_PPC64 : Z := 21.
Definition EM_S390 : Z := 22.
Definition EM_ARM : Z := 40.
Definition EM_FAKE_ALPHA : Z := 41.
Definition EM_SH : Z := 42.
Definition EM_SPARCV9 : Z := 43.
Definition EM_IA_64 : Z := 50.
Definition EM_X86_64 : Z := 62.
Definition EM_AARCH64 : Z := 183.
Definition EM_RISCV : Z := 243.
Definition EM_ALPHA : Z := 36902.          (* 0x9026 *)

Definition PT_INTERP : Z := 3.

Definition SHT_DYNAMIC : Z := 6.
Definition SHT_GNU_verdef : Z := 1879048189.   (* 0x6ffffffd *)
Definition SHT_GNU_verneed : Z := 1879048190.  (* 0x6ffffffe *)

Definition DT_NEEDED : Z := 1.
Definition DT_HASH : Z := 4.
Definition DT_SONAME : Z := 14.
Definition DT_DEBUG : Z := 21.
Definition DT_GNU_HASH : Z := 1879047925.      (* 0x6ffffef5 *)

Definition VER_FLG_BASE : Z := 1.

Definition S_IXUSR : Z := 64.                  (* 0100 *)
Definition S_IXGRP : Z := 8.                   (* 0010 *)
Definition S_IXOTH : Z := 1.                   (* 0001 *)

End ElfH.

(* ================================================================= *)
(** ** The view of an object that libelf gives *)

(** [elfdeps.c] never looks at the bytes of an object: it asks libelf.
    An object is therefore what its accessors answer.  Every field holds
    a value of its C type. *)
Module Libelf.

Inductive Elf_Kind : Type :=
| ELF_K_NONE | ELF_K_AR | ELF_K_COFF | ELF_K_ELF.

Definition Elf_Kind_eqb (a b : Elf_Kind) : bool :=
  match a, b with
  | ELF_K_NONE, ELF_K_NONE | ELF_K_AR, ELF_K_AR
  | ELF_K_COFF, ELF_K_COFF | ELF_K_ELF, ELF_K_ELF => true
  | _, _ => false
  end.

Record GElf_Ehdr : Type := {
  e_ident : list Z;            (* unsigned char e_ident[EI_NIDENT] *)
  e_type : Z;
  e_machine : Z;
  e_phnum : Z
}.

Record GElf_Phdr : Type := { p_type : Z; p_offset : Z }.

Record GElf_Shdr : Type := {
  sh_type : Z;
  sh_link : Z;
  sh_info : Z;
  sh_size : Z;
  sh_entsize : Z
}.

Record GElf_Dyn : Type := { d_tag : Z; d_val : Z }.

Record GElf_Verdef : Type := {
  vd_flags : Z; vd_cnt : Z; vd_aux : Z; vd_next : Z
}.
Record GElf_Verdaux : Type := { vda_name : Z; vda_next : Z }.

Record GElf_Verneed : Type := {
  vn_cnt : Z; vn_file : Z; vn_aux : Z; vn_next : Z
}.
Record GElf_Vernaux : Type := { vna_name : Z; vna_next : Z }.

(** One data block of a section.  The [gelf_get*] functions read a
    record at an index or a byte offset of the block and answer NULL
    when it does not fit. *)
Record Elf_Data : Type := {
  gelf_getdyn : Z -> option GElf_Dyn;
  gelf_getverdef : Z -> option GElf_Verdef;
  gelf_getverdaux : Z -> option GElf_Verdaux;
  gelf_getverneed : Z -> option GElf_Verneed;
  gelf_getvernaux : Z -> option GElf_Vernaux
}.

(** A section: its header, and the data blocks that successive calls of
    [elf_getdata] return. *)
Record Elf_Scn : Type := {
  gelf_getshdr : option GElf_Shdr;
  elf_getdata : list Elf_Data
}.

(** The raw image: its size, and the NUL-terminated string that starts
    at each offset. *)
Record rawfile : Type := {
  maxsize : Z;
  string_at : Z -> string
}.

Record Elf : Type := {
  elf_kind : Elf_Kind;
  gelf_getehdr : option GElf_Ehdr;
  gelf_getphdr : Z -> option GElf_Phdr;
  elf_rawfile : option rawfile;
  elf_nextscn : list Elf_Scn;      (* in the order elf_nextscn walks *)
  elf_strptr : Z -> Z -> option string
}.

End Libelf.

(** What [open], [fstat] and [elf_begin] answer for a path. *)
Module Sys.

Record fd : Type := {
  fstat : option Z;                (* st_mode, or failure *)
  elf_begin : option Libelf.Elf
}.

(** [open(fn, O_RDONLY)]: a descriptor, or failure. *)
Definition filesystem : Type := string -> option fd.

End Sys.

(* ================================================================= *)
(** ** tools/elfdeps.c *)

Module Elfdeps.

Import CInt Libc Rpmstring Argv ElfH Libelf Sys.

(** The option variables [soname_only], [fake_soname], ... are process
    globals that [main] sets once from the command line and nothing
    writes afterwards.  Only their truth value is ever used. *)
Record flags : Type := {
  soname_only : bool;
  fake_soname : bool;
  filter_soname : bool;
  require_interp : bool;
  add_arch : bool;
  add_nonarch : bool
}.

(** The initialisers of the globals. *)
Definition default_flags : flags :=
  {| soname_only := false; fake_soname := true; filter_soname := true;
     require_interp := false; add_arch := false; add_nonarch := true |}.

(** [struct elfInfo_s] without its [elf] handle, which the model passes
    next to it. *)
Record elfInfo : Type := {
  isDSO : bool;
  isExec : Z;                      (* requires are only added to executables *)
  gotDEBUG : bool;
  gotHASH : bool;
  gotGNUHASH : bool;
  soname : option string;
  interp : option string;
  marker : option string;          (* elf class marker or NULL *)
  archmarker : option string;
  requires : ARGV_t;
  provides : ARGV_t
}.

(** [rcalloc] of one [elfInfo]: every field zero. *)
Definition ei_zero : elfInfo :=
  {| isDSO := false; isExec := 0; gotDEBUG := false; gotHASH := false;
     gotGNUHASH := false; soname := None; interp := None; marker := None;
     archmarker := None; requires := []; provides := [] |}.

Definition set_requires (ei : elfInfo) (r : ARGV_t) : elfInfo :=
  {| isDSO := isDSO ei; isExec := isExec ei; gotDEBUG := gotDEBUG ei;
     gotHASH := gotHASH ei; gotGNUHASH := gotGNUHASH ei;
     soname := soname ei; interp := interp ei; marker := marker ei;
     archmarker := archmarker ei; requires := r; provides := provides ei |}.

Definition set_provides (ei : elfInfo) (p : ARGV_t) : elfInfo :=
  {| isDSO := isDSO ei; isExec := isExec ei; gotDEBUG := gotDEBUG ei;
     gotHASH := gotHASH ei; gotGNUHASH := gotGNUHASH ei;
     soname := soname ei; interp := interp ei; marker := marker ei;
     archmarker := archmarker ei; requires := requires ei; provides := p |}.

Definition set_soname (ei : elfInfo) (s : option string) : elfInfo :=
  {| isDSO := isDSO ei; isExec := isExec ei; gotDEBUG := gotDEBUG ei;
     gotHASH := gotHASH ei; gotGNUHASH := gotGNUHASH ei;
     soname := s; interp := interp ei; marker := marker ei;
     archmarker := archmarker ei; requires := requires ei;
     provides := provides ei |}.

Definition set_interp (ei : elfInfo) (s : option string) : elfInfo :=
  {| isDSO := isDSO ei; isExec := isExec ei; gotDEBUG := gotDEBUG ei;
     gotHASH := gotHASH ei; gotGNUHASH := gotGNUHASH ei;
     soname := soname ei; interp := s; marker := marker ei;
     archmarker := archmarker ei; requires := requires ei;
     provides := provides ei |}.

Definition set_gotHASH (ei : elfInfo) : elfInfo :=
  {| isDSO := isDSO ei; isExec := isExec ei; gotDEBUG := gotDEBUG ei;
     gotHASH := true; gotGNUHASH := gotGNUHASH ei;
     soname := soname ei; interp := interp ei; marker := marker ei;
     archmarker := archmarker ei; requires := requires ei;
     provides := provides ei |}.

Definition set_gotGNUHASH (ei : elfInfo) : elfInfo :=
  {| isDSO := isDSO ei; isExec := isExec ei; gotDEBUG := gotDEBUG ei;
     gotHASH := gotHASH ei; gotGNUHASH := true;
     soname := soname ei; interp := interp ei; marker := marker ei;
     archmarker := archmarker ei; requires := requires ei;
     provides := provides ei |}.

Definition set_gotDEBUG (ei : elfInfo) : elfInfo :=
  {| isDSO := isDSO ei; isExec := isExec ei; gotDEBUG := true;
     gotHASH := gotHASH ei; gotGNUHASH := gotGNUHASH ei;
     soname := soname ei; interp := interp ei; marker := marker ei;
     archmarker := archmarker ei; requires := requires ei;
     provides := provides ei |}.

Definition is_some {A : Type} (o : option A) : bool :=
  match o with Some _ => true | None => false end.

Definition or_empty (o : option string) : string :=
  match o with Some s => s | None => "" end.

(** [--no-filter-soname], [--add-arch], ... change the flags; the
    program itself reads them only. *)
Section Program.

Variable opt : flags.

(** The loop of [skipSoname]: is there a character that is not
    white space? *)
Fixpoint sane_scan (s : string) : bool :=
  match s with
  | EmptyString => false
  | String c s' => if negb (risspace c) then true else sane_scan s'
  end.

(** [skipSoname]: 1 ([true]) drops the name, 0 keeps it. *)
Definition skipSoname (soname : string) : bool :=
  if negb (sane_scan soname) then true
  else if filter_soname opt then
    if negb (is_some (strstr soname ".so")) then true
    else if (rstreqn soname "ld." 3 || rstreqn soname "ld-" 3
             || rstreqn soname "ld64." 3 || rstreqn soname "ld64-" 3)%bool
    then false
    else if rstreqn soname "lib" 3 then false
    else true
  else false.

Definition genRequires (ei : elfInfo) : bool :=
  negb (is_some (interp ei) && (isExec ei =? 0)).

Definition ident (ehdr : GElf_Ehdr) (i : nat) : Z := nth i (e_ident ehdr) 0.

Definition mkmarker (ehdr : GElf_Ehdr) : option string :=
  if ident ehdr EI_CLASS =? ELFCLASS64 then
    if (e_machine ehdr =? EM_ALPHA) || (e_machine ehdr =? EM_FAKE_ALPHA)
    then None      (* alpha doesn't traditionally have 64bit markers *)
    else Some "(64bit)"
  else None.

(** [mkarchmarker]: every case of the switch assigns the marker, so
    the result is never NULL.  EM_AARCH64 and EM_RISCV are defined by
    the <elf.h> the program is built with. *)
Definition mkarchmarker (ehdr : GElf_Ehdr) : string :=
  let is64 := ident ehdr EI_CLASS =? ELFCLASS64 in
  let isle := ident ehdr EI_DATA =? ELFDATA2LSB in
  let m := e_machine ehdr in
  if m =? EM_386 then "(i386)"
  else if m =? EM_68K then "(m68k)"
  else if m =? EM_AARCH64 then (if isle then "(aarch64)" else "(aarch64_be)")
  else if (m =? EM_ALPHA) || (m =? EM_FAKE_ALPHA) then "(alpha)"
  else if m =? EM_ARM then (if isle then "(arm)" else "armeb")
  else if m =? EM_IA_64 then "(ia64)"
  else if m =? EM_MIPS then
    (if is64 && isle then "(mips64le)"
     else if is64 then "(mips64)"
     else if isle then "(mipsel)"
     else "(mips)")
  else if m =? EM_PARISC then (if is64 then "(hppa64)" else "hppa")
  else if m =? EM_PPC then (if isle then "(ppcle)" else "(ppc)")
  else if m =? EM_PPC64 then (if isle then "(ppc64le)" else "(ppc64)")
  else if m =? EM_RISCV then (if is64 then "(riscv64)" else "(riscv32)")
  else if m =? EM_S390 then (if is64 then "(s390x)" else "(s390)")
  else if m =? EM_SH then (if isle then "(shl)" else "(sh)")
  else if (m =? EM_SPARC) || (m =? EM_SPARC32PLUS) || (m =? EM_SPARCV9)
  then (if is64 then "(sparc64)" else "(sparc)")
  else if m =? EM_X86_64 then "(x86_64)"
  else (if is64 then "(unknown64)" else "(unknown)").

Definition addDep (deps : ARGV_t) (soname : string)
           (ver marker : option string) : ARGV_t :=
  if skipSoname soname then deps
  else
    let dep :=
      if (is_some ver || is_some marker)%bool
      then Some (rasprintf "%s(%s)%s"
                           [soname; or_empty ver; or_empty marker])
      else None in
    argvAdd deps (match dep with Some d => d | None => soname end).

(** The pair of statements that follows every raw dependency:
    [if (add_nonarch) addDep(.., ei->marker);
     if (add_arch) addDep(.., ei->archmarker);]. *)
Definition addDeps (deps : ARGV_t) (ei : elfInfo) (soname : string)
           (ver : option string) : ARGV_t :=
  let deps1 := if add_nonarch opt then addDep deps soname ver (marker ei)
               else deps in
  if add_arch opt then addDep deps1 soname ver (archmarker ei) else deps1.

(** *** processVerDef *)

(** The inner loop, [for (int j = def->vd_cnt; --j >= 0; )]: [j]
    counts the rounds left, [st] holds the local [soname] and the
    object context.  Only the base branch moves [auxoffset]. *)
Fixpoint verdefAuxLoop (elf : Elf) (shdr : GElf_Shdr) (data : Elf_Data)
         (def : GElf_Verdef) (j : nat) (auxoffset : Z)
         (st : option string * elfInfo) : option string * elfInfo :=
  match j with
  | O => st
  | S j' =>
      match gelf_getverdaux data (to_int auxoffset) with
      | None => st
      | Some aux =>
          match elf_strptr elf (sh_link shdr) (vda_name aux) with
          | None => st
          | Some s =>
              if negb (Z.land (vd_flags def) VER_FLG_BASE =? 0) then
                verdefAuxLoop elf shdr data def j'
                              (uadd auxoffset (vda_next aux))
                              (Some s, snd st)
              else
                match fst st with
                | Some soname =>
                    if negb (soname_only opt) then
                      verdefAuxLoop elf shdr data def j' auxoffset
                        (fst st,
                         set_provides (snd st)
                           (addDeps (provides (snd st)) (snd st)
                                    soname (Some s)))
                    else verdefAuxLoop elf shdr data def j' auxoffset st
                | None => verdefAuxLoop elf shdr data def j' auxoffset st
                end
          end
      end
  end.

(** The outer loop, [for (int i = shdr->sh_info; --i >= 0; )]. *)
Fixpoint verdefLoop (elf : Elf) (shdr : GElf_Shdr) (data : Elf_Data)
         (i : nat) (offset : Z) (st : option string * elfInfo)
  : option string * elfInfo :=
  match i with
  | O => st
  | S i' =>
      match gelf_getverdef data (to_int offset) with
      | None => st
      | Some def =>
          let auxoffset := uadd offset (vd_aux def) in
          let offset' := uadd offset (vd_next def) in
          verdefLoop elf shdr data i' offset'
            (verdefAuxLoop elf shdr data def (Z.to_nat (vd_cnt def))
                           auxoffset st)
      end
  end.

(** The number of rounds of [for (int i = count; --i >= 0; )] for a
    32-bit unsigned [count]: the count itself as an [int] when that
    is positive, none when it is negative; decrementing INT_MIN is
    undefined. *)
Definition countdown (count : Z) : outcome nat :=
  if to_int count =? INT_MIN then Undefined
  else Ret (Z.to_nat (to_int count)).

Definition processVerDef (elf : Elf) (scn : Elf_Scn) (shdr : GElf_Shdr)
           (ei : elfInfo) : outcome elfInfo :=
  let* st :=
    foldM (fun st data =>
             let* n := countdown (sh_info shdr) in
             Ret (verdefLoop elf shdr data n 0 st))
          (None, ei) (elf_getdata scn) in
  Ret (snd st).

(** *** processVerNeed *)

Fixpoint verneedAuxLoop (elf : Elf) (shdr : GElf_Shdr) (data : Elf_Data)
         (soname : option string) (j : nat) (auxoffset : Z)
         (ei : elfInfo) : elfInfo :=
  match j with
  | O => ei
  | S j' =>
      match gelf_getvernaux data (to_int auxoffset) with
      | None => ei
      | Some aux =>
          match elf_strptr elf (sh_link shdr) (vna_name aux) with
          | None => ei
          | Some s =>
              let ei' :=
                match soname with
                | Some name =>
                    if (genRequires ei && negb (soname_only opt))%bool
                    then set_requires ei
                           (addDeps (requires ei) ei name (Some s))
                    else ei
                | None => ei
                end in
              verneedAuxLoop elf shdr data soname j'
                             (uadd auxoffset (vna_next aux)) ei'
          end
      end
  end.

Fixpoint verneedLoop (elf : Elf) (shdr : GElf_Shdr) (data : Elf_Data)
         (i : nat) (offset : Z) (st : option string * elfInfo)
  : option string * elfInfo :=
  match i with
  | O => st
  | S i' =>
      match gelf_getverneed data (to_int offset) with
      | None => st
      | Some need =>
          match elf_strptr elf (sh_link shdr) (vn_file need) with
          | None => st
          | Some s =>
              let auxoffset := uadd offset (vn_aux need) in
              let ei' := verneedAuxLoop elf shdr data (Some s)
                           (Z.to_nat (vn_cnt need)) auxoffset (snd st) in
              verneedLoop elf shdr data i' (uadd offset (vn_next need))
                          (Some s, ei')
          end
      end
  end.

Definition processVerNeed (elf : Elf) (scn : Elf_Scn) (shdr : GElf_Shdr)
           (ei : elfInfo) : outcome elfInfo :=
  let* st :=
    foldM (fun st data =>
             let* n := countdown (sh_info shdr) in
             Ret (verneedLoop elf shdr data n 0 st))
          (None, ei) (elf_getdata scn) in
  Ret (snd st).

(** *** processDynamic *)

(** The switch on [dyn->d_tag]. *)
Definition dynEntry (elf : Elf) (shdr : GElf_Shdr) (dyn : GElf_Dyn)
           (ei : elfInfo) : elfInfo :=
  let tag := d_tag dyn in
  if tag =? DT_HASH then set_gotHASH ei
  else if tag =? DT_GNU_HASH then set_gotGNUHASH ei
  else if tag =? DT_DEBUG then set_gotDEBUG ei
  else if tag =? DT_SONAME then
    match elf_strptr elf (sh_link shdr) (d_val dyn) with
    | Some s => set_soname ei (Some s)
    | None => ei
    end
  else if tag =? DT_NEEDED then
    if genRequires ei then
      match elf_strptr elf (sh_link shdr) (d_val dyn) with
      | Some s => set_requires ei (addDeps (requires ei) ei s None)
      | None => ei
      end
    else ei
  else ei.

(** [for (int i = 0; i < count; i++)]: [n] is [count - i].  The
    increment of an [int] that holds INT_MAX is undefined. *)
Fixpoint dynLoop (elf : Elf) (shdr : GElf_Shdr) (data : Elf_Data)
         (n : nat) (i : Z) (ei : elfInfo) : outcome elfInfo :=
  match n with
  | O => Ret ei
  | S n' =>
      match gelf_getdyn data i with
      | None => Ret ei
      | Some dyn =>
          let ei' := dynEntry elf shdr dyn ei in
          if i =? INT_MAX then Undefined
          else dynLoop elf shdr data n' (i + 1) ei'
      end
  end.

(** The bound [shdr->sh_size / shdr->sh_entsize] is an unsigned
    division, undefined for a zero entry size. *)
Definition processDynamic (elf : Elf) (scn : Elf_Scn) (shdr : GElf_Shdr)
           (ei : elfInfo) : outcome elfInfo :=
  foldM (fun ei data =>
           if sh_entsize shdr =? 0 then Undefined
           else dynLoop elf shdr data
                        (Z.to_nat (sh_size shdr / sh_entsize shdr)) 0 ei)
        ei (elf_getdata scn).

(** *** processSections *)

Definition processSection (elf : Elf) (scn : Elf_Scn) (shdr : GElf_Shdr)
           (ei : elfInfo) : outcome elfInfo :=
  if sh_type shdr =? SHT_GNU_verdef then processVerDef elf scn shdr ei
  else if sh_type shdr =? SHT_GNU_verneed then processVerNeed elf scn shdr ei
  else if sh_type shdr =? SHT_DYNAMIC then processDynamic elf scn shdr ei
  else Ret ei.

(** The walk stops at the first section whose header cannot be
    read. *)
Fixpoint sectionsLoop (elf : Elf) (scns : list Elf_Scn) (ei : elfInfo)
  : outcome elfInfo :=
  match scns with
  | [] => Ret ei
  | scn :: rest =>
      match gelf_getshdr scn with
      | None => Ret ei
      | Some shdr =>
          let* ei' := processSection elf scn shdr ei in
          sectionsLoop elf rest ei'
      end
  end.

Definition processSections (elf : Elf) (ei : elfInfo) : outcome elfInfo :=
  sectionsLoop elf (elf_nextscn elf) ei.

(** *** processProgHeaders *)

Fixpoint phdrLoop (elf : Elf) (n : nat) (i : Z) (ei : elfInfo) : elfInfo :=
  match n with
  | O => ei
  | S n' =>
      match gelf_getphdr elf i with
      | Some phdr =>
          if p_type phdr =? PT_INTERP then
            match elf_rawfile elf with
            | Some raw =>
                if p_offset phdr <? maxsize raw
                then set_interp ei (Some (string_at raw (p_offset phdr)))
                else phdrLoop elf n' (i + 1) ei
            | None => phdrLoop elf n' (i + 1) ei
            end
          else phdrLoop elf n' (i + 1) ei
      | None => phdrLoop elf n' (i + 1) ei
      end
  end.

Definition processProgHeaders (elf : Elf) (ehdr : GElf_Ehdr)
           (ei : elfInfo) : elfInfo :=
  phdrLoop elf (Z.to_nat (e_phnum ehdr)) 0 ei.

(** *** processFile *)

(** The part of [fn] after its last slash. *)
Definition basename (fn : string) : string :=
  match strrchr fn "/" with
  | Some (String _ bn) => bn
  | Some EmptyString => EmptyString
  | None => fn
  end.

(** The header step: markers, kind and permission bits, then the two
    scans, for shared objects and executables only. *)
Definition scanObject (elf : Elf) (ehdr : GElf_Ehdr) (st_mode : Z)
  : outcome elfInfo :=
  if (e_type ehdr =? ET_DYN) || (e_type ehdr =? ET_EXEC) then
    let ei :=
      {| isDSO := e_type ehdr =? ET_DYN;
         isExec := Z.land st_mode (Z.lor (Z.lor S_IXUSR S_IXGRP) S_IXOTH);
         gotDEBUG := false; gotHASH := false; gotGNUHASH := false;
         soname := None; interp := None;
         marker := mkmarker ehdr;
         archmarker := Some (mkarchmarker ehdr);
         requires := []; provides := [] |} in
    processSections elf (processProgHeaders elf ehdr ei)
  else Ret ei_zero.

(** For DSOs which use the .gnu_hash section and don't have a .hash
    section, a new enough glibc is required. *)
Definition addGnuHash (ei : elfInfo) : elfInfo :=
  if (genRequires ei && gotGNUHASH ei && negb (gotHASH ei)
      && negb (soname_only opt))%bool
  then set_requires ei (argvAdd (requires ei) "rtld(GNU_HASH)")
  else ei.

(** For DSOs, add DT_SONAME as provide, faked from the basename when
    it is missing and faking is requested. *)
Definition addSonameProvide (fn : string) (ei : elfInfo) : elfInfo :=
  if (isDSO ei && negb (gotDEBUG ei))%bool then
    let ei1 :=
      if (negb (is_some (soname ei)) && fake_soname opt)%bool
      then set_soname ei (Some (basename fn))
      else ei in
    match soname ei1 with
    | Some so => set_provides ei1 (addDeps (provides ei1) ei1 so None)
    | None => ei1
    end
  else ei.

(** If requested and present, add dep for interpreter. *)
Definition addInterp (ei : elfInfo) : elfInfo :=
  match interp ei with
  | Some ld =>
      if require_interp opt
      then set_requires ei (argvAdd (requires ei) ld)
      else ei
  | None => ei
  end.

(** [processFile] returns its [rc] and the lines it prints on
    [stdout]. *)
Definition processFile (fs : filesystem) (fn : string) (dtype : bool)
  : outcome (Z * list string) :=
  match fs fn with
  | None => Ret (1, [])
  | Some fdno =>
      match fstat fdno with
      | None => Ret (1, [])
      | Some st_mode =>
          match elf_begin fdno with
          | None => Ret (1, [])
          | Some elf =>
              if negb (Elf_Kind_eqb (elf_kind elf) ELF_K_ELF)
              then Ret (1, [])
              else
                match gelf_getehdr elf with
                | None => Ret (1, [])
                | Some ehdr =>
                    let* ei := scanObject elf ehdr st_mode in
                    let ei := addInterp
                                (addSonameProvide fn (addGnuHash ei)) in
                    Ret (0, if dtype then requires ei else provides ei)
                end
          end
      end
  end.

(** *** main, after the options are parsed *)

Definition EXIT_FAILURE : Z := 1.

(** Either loop of [main]: [rc] and the output so far are carried
    along. *)
Fixpoint fileLoop (fs : filesystem) (requires : bool) (fns : list string)
         (rc : Z) (out : list string) : outcome (Z * list string) :=
  match fns with
  | [] => Ret (rc, out)
  | fn :: rest =>
      let* r := processFile fs fn requires in
      fileLoop fs requires rest
               (if fst r =? 0 then rc else EXIT_FAILURE)
               (out ++ snd r)
  end.

(** [fn[strlen(fn)-1] = 0]: the last character of the line is
    dropped. *)
Fixpoint chop (line : string) : string :=
  match line with
  | EmptyString => EmptyString
  | String c EmptyString => EmptyString
  | String c rest => String c (chop rest)
  end.

(** The loop over the lines that [fgets] reads.  For an empty buffer
    the assignment above would write before its start. *)
Fixpoint stdinLoop (fs : filesystem) (requires : bool)
         (lines : list string) (rc : Z) (out : list string)
  : outcome (Z * list string) :=
  match lines with
  | [] => Ret (rc, out)
  | EmptyString :: _ => Undefined
  | line :: rest =>
      let* r := processFile fs (chop line) requires in
      stdinLoop fs requires rest
                (if fst r =? 0 then rc else EXIT_FAILURE)
                (out ++ snd r)
  end.

(** [main] from the point where the options are parsed: [args] are
    the remaining arguments, [stdin] the lines [fgets] returns when
    there are none.  The result is the exit status and what was
    printed. *)
Definition main (fs : filesystem) (requires : bool)
           (args stdin : list string) : outcome (Z * list string) :=
  match args with
  | _ :: _ => fileLoop fs requires args 0 []
  | [] => stdinLoop fs requires stdin 0 []
  end.

End Program.

(** *** Reading aids *)

(** The object behind a path that [processFile] gets as far as
    scanning: permission bits, handle and header. *)
Definition object_of (fs : filesystem) (fn : string)
  : option (Z * Elf * GElf_Ehdr) :=
  match fs fn with
  | None => None
  | Some fdno =>
      match fstat fdno, elf_begin fdno with
      | Some st_mode, Some elf =>
          if Elf_Kind_eqb (elf_kind elf) ELF_K_ELF then
            match gelf_getehdr elf with
            | Some ehdr => Some (st_mode, elf, ehdr)
            | None => None
            end
          else None
      | _, _ => None
      end
  end.








(** The tags of the dynamic entries that the scan of one data block
    visits. *)
Fixpoint dynTagsLoop (data : Elf_Data) (n : nat) (i : Z) : list Z :=
  match n with
  | O => []
  | S n' =>
      match gelf_getdyn data i with
      | None => []
      | Some dyn => d_tag dyn :: dynTagsLoop data n' (i + 1)
      end
  end.



Definition has_tag (tag : Z) (tags : list Z) : bool :=
  existsb (Z.eqb tag) tags.

(** What a scan may change in the object context: never the header
    facts; the two hash flags by the tags it meets; and [requires] only
    when the gate [genRequires] is open. *)
Definition scan_rel (tags : list Z) (ei ei' : elfInfo) : Prop :=
  isDSO ei' = isDSO ei
  /\ isExec ei' = isExec ei
  /\ interp ei' = interp ei
  /\ marker ei' = marker ei
  /\ archmarker ei' = archmarker ei
  /\ gotGNUHASH ei' = gotGNUHASH ei || has_tag DT_GNU_HASH tags
  /\ gotHASH ei' = gotHASH ei || has_tag DT_HASH tags
  /\ (genRequires ei = false -> requires ei' = requires ei).

(** *** The documented rules, in the words of the specification *)

Fixpoint all_space (s : string) : bool :=
  match s with
  | EmptyString => true
  | String c s' => risspace c && all_space s'
  end.

Fixpoint contains (needle s : string) : bool :=
  prefix needle s
  || match s with
     | EmptyString => false
     | String _ s' => contains needle s'
     end.

Definition starts_with (s p : string) : bool := prefix p s.

(** The rejection rule as documented: blank; or, under strict
    filtering, no ".so"; or, under strict filtering, neither "lib" nor
    one of the dynamic loader prefixes at the start. *)
Definition skipSoname_spec (opt : flags) (soname : string) : bool :=
  all_space soname
  || (filter_soname opt && negb (contains ".so" soname))
  || (filter_soname opt
      && negb (starts_with soname "lib")
      && negb (starts_with soname "ld." || starts_with soname "ld-"
               || starts_with soname "ld64." || starts_with soname "ld64-")).

(** The machine codes that [mkarchmarker] has a case for. *)
Definition known_machines : list Z :=
  [EM_386; EM_68K; EM_AARCH64; EM_ALPHA; EM_FAKE_ALPHA; EM_ARM; EM_IA_64;
   EM_MIPS; EM_PARISC; EM_PPC; EM_PPC64; EM_RISCV; EM_S390; EM_SH;
   EM_SPARC; EM_SPARC32PLUS; EM_SPARCV9; EM_X86_64].

(** A marker is bracketed when it opens with "(" and closes with ")". *)
Definition bracketed (s : string) : bool :=
  match s with
  | String "(" r => String.eqb (substring (String.length r - 1) 1 r) ")"
  | _ => false
  end.

(** The decorated form [name(version)marker]. *)
Definition decorated (name : string) (ver marker : option string) : string :=
  (name ++ "(" ++ or_empty ver ++ ")" ++ or_empty marker)%string.

(** *** Aids for the properties of the scans *)

(** The string that [addDep] appends for a name it keeps. *)
Definition dep_string (name : string) (ver marker : option string) : string :=
  match ver, marker with
  | None, None => name
  | _, _ => decorated name ver marker
  end.

(** A line that [addDep] built, from a name that passed the filter. *)
Definition from_addDep (opt : flags) (line : string) : Prop :=
  exists name ver marker,
    skipSoname opt name = false /\ line = dep_string name ver marker.

(** [l'] is [l] with lines of [addDep] appended. *)
Definition grows (opt : flags) (l l' : ARGV_t) : Prop :=
  exists extra, l' = l ++ extra /\ Forall (from_addDep opt) extra.

(** What a scan does to the rest of the context: the debug flag follows
    the tags, the soname changes at a DT_SONAME entry only, both lists
    grow at their end, by lines of [addDep], and in soname-only mode
    provides does not grow. *)
Definition scan_ext (opt : flags) (tags : list Z) (ei ei' : elfInfo) : Prop :=
  gotDEBUG ei' = gotDEBUG ei || has_tag DT_DEBUG tags
  /\ (has_tag DT_SONAME tags = false -> soname ei' = soname ei)
  /\ grows opt (provides ei) (provides ei')
  /\ grows opt (requires ei) (requires ei')
  /\ (soname_only opt = true -> provides ei' = provides ei).

(** The entries that the scan of one data block of a dynamic section
    visits. *)
Fixpoint dynVisited (data : Elf_Data) (n : nat) (i : Z) : list GElf_Dyn :=
  match n with
  | O => []
  | S n' =>
      match gelf_getdyn data i with
      | None => []
      | Some dyn => dyn :: dynVisited data n' (i + 1)
      end
  end.

(** The lines that one dynamic entry contributes to [requires] when the
    gate is open: those of its name, for a DT_NEEDED entry whose name
    resolves. *)
Definition neededDeps (opt : flags) (elf : Elf) (shdr : GElf_Shdr)
           (ei : elfInfo) (dyn : GElf_Dyn) : list string :=
  if d_tag dyn =? DT_NEEDED then
    match elf_strptr elf (sh_link shdr) (d_val dyn) with
    | Some s => addDeps opt [] ei s None
    | None => []
    end
  else [].



(** The lines of the two decoration passes for a kept name. *)
Definition marker_lines (opt : flags) (name : string) (ver : option string)
           (m am : option string) : list string :=
  (if add_nonarch opt then [dep_string name ver m] else [])
  ++ (if add_arch opt then [dep_string name ver am] else []).

(** The auxiliary entries of a version requirement record, read from
    [auxoffset] on along their [vna_next] links, resolve to [names]. *)
Fixpoint vernaux_chain (elf : Elf) (shdr : GElf_Shdr) (data : Elf_Data)
         (auxoffset : Z) (names : list string) : Prop :=
  match names with
  | [] => True
  | s :: rest =>
      exists aux,
        gelf_getvernaux data (to_int auxoffset) = Some aux
        /\ elf_strptr elf (sh_link shdr) (vna_name aux) = Some s
        /\ vernaux_chain elf shdr data (uadd auxoffset (vna_next aux)) rest
  end.

(** A string that some section of the object holds. *)
Definition resolves (elf : Elf) (s : string) : Prop :=
  exists index offset, elf_strptr elf index offset = Some s.

(** A line that the decoration passes built: one of the lines of the
    enabled passes, under the markers [m] and [am], for a name that
    passed the filter and is one of [N], and a version, if any, that is
    one of [V]. *)
Definition built_line (opt : flags) (N V : string -> Prop)
           (m am : option string) (line : string) : Prop :=
  exists name ver,
    skipSoname opt name = false
    /\ N name
    /\ (forall v, ver = Some v -> V v)
    /\ In line (marker_lines opt name ver m am).



(** The lines of provides-mode: built under the markers of the header
    from a string of the object or, with fake-soname on, from the last
    component of the path; a version is a string of the object. *)
Definition provides_line (opt : flags) (fn : string) (elf : Elf)
           (ehdr : GElf_Ehdr) (line : string) : Prop :=
  built_line opt
    (fun name => resolves elf name
                 \/ (fake_soname opt = true /\ name = basename fn))
    (resolves elf) (mkmarker ehdr) (Some (mkarchmarker ehdr)) line.




(** The soname after one dynamic entry: a DT_SONAME entry whose string
    resolves replaces it. *)
Definition sonameStep (elf : Elf) (shdr : GElf_Shdr) (acc : option string)
           (dyn : GElf_Dyn) : option string :=
  if d_tag dyn =? DT_SONAME then
    match elf_strptr elf (sh_link shdr) (d_val dyn) with
    | Some s => Some s
    | None => acc
    end
  else acc.

(** All entries that the scan of a dynamic section visits, block after
    block. *)
Definition scnVisited (scn : Elf_Scn) (shdr : GElf_Shdr) : list GElf_Dyn :=
  flat_map (fun data =>
              dynVisited data (Z.to_nat (sh_size shdr / sh_entsize shdr)) 0)
           (elf_getdata scn).


Fixpoint no_slash (s : string) : bool :=
  match s with
  | EmptyString => true
  | String c s' => negb (Ascii.eqb c "/") && no_slash s'
  end.


End Elfdeps.

(* ================================================================= *)
(** ** Sample objects *)

Module Samples.

Import ElfH Libelf Sys Elfdeps.

(** A 64-bit little-endian x86-64 shared object header. *)
Definition ehdr_x86_64 : GElf_Ehdr :=
  {| e_ident := [127; 69; 76; 70; ELFCLASS64; ELFDATA2LSB; 1; 0;
                 0; 0; 0; 0; 0; 0; 0; 0];
     e_type := ET_DYN; e_machine := EM_X86_64; e_phnum := 0 |}.

(** The same with one program header. *)
Definition ehdr_x86_64_ph : GElf_Ehdr :=
  {| e_ident := e_ident ehdr_x86_64;
     e_type := ET_DYN; e_machine := EM_X86_64; e_phnum := 1 |}.

(** A 32-bit big-endian ARM header and a 32-bit PA-RISC header. *)
Definition ehdr_armeb : GElf_Ehdr :=
  {| e_ident := [127; 69; 76; 70; 1; ELFDATA2MSB; 1; 0;
                 0; 0; 0; 0; 0; 0; 0; 0];
     e_type := ET_DYN; e_machine := EM_ARM; e_phnum := 0 |}.

Definition ehdr_hppa : GElf_Ehdr :=
  {| e_ident := [127; 69; 76; 70; 1; ELFDATA2MSB; 1; 0;
                 0; 0; 0; 0; 0; 0; 0; 0];
     e_type := ET_DYN; e_machine := EM_PARISC; e_phnum := 0 |}.

(** The string table, section 3: offset and string. *)
Definition dynstr : list (Z * string) :=
  [(1, "libfoo.so.1"); (13, "LIBFOO_1.0"); (24, "LIBFOO_1.1");
   (35, "libc.so.6"); (45, "GLIBC_2.2.5")].

Fixpoint lookup (tab : list (Z * string)) (off : Z) : option string :=
  match tab with
  | [] => None
  | (o, s) :: tab' => if o =? off then Some s else lookup tab' off
  end.

Definition strptr (index offset : Z) : option string :=
  if index =? 3 then lookup dynstr offset else None.

Definition no_data : Elf_Data :=
  {| gelf_getdyn := fun _ => None;
     gelf_getverdef := fun _ => None;
     gelf_getverdaux := fun _ => None;
     gelf_getverneed := fun _ => None;
     gelf_getvernaux := fun _ => None |}.

Fixpoint at_offset {A : Type} (tab : list (Z * A)) (off : Z) : option A :=
  match tab with
  | [] => None
  | (o, a) :: tab' => if o =? off then Some a else at_offset tab' off
  end.

Definition dyn_data (entries : list GElf_Dyn) : Elf_Data :=
  {| gelf_getdyn := fun i => if i <? 0 then None
                             else nth_error entries (Z.to_nat i);
     gelf_getverdef := fun _ => None;
     gelf_getverdaux := fun _ => None;
     gelf_getverneed := fun _ => None;
     gelf_getvernaux := fun _ => None |}.

Definition dyn_scn (entries : list GElf_Dyn) : Elf_Scn :=
  {| gelf_getshdr :=
       Some {| sh_type := SHT_DYNAMIC; sh_link := 3; sh_info := 0;
               sh_size := 16 * Z.of_nat (List.length entries);
               sh_entsize := 16 |};
     elf_getdata := [dyn_data entries] |}.

Definition verdef_scn (count : Z) (defs : list (Z * GElf_Verdef))
           (auxs : list (Z * GElf_Verdaux)) : Elf_Scn :=
  {| gelf_getshdr :=
       Some {| sh_type := SHT_GNU_verdef; sh_link := 3; sh_info := count;
               sh_size := 20 * Z.of_nat (List.length defs)
                          + 8 * Z.of_nat (List.length auxs);
               sh_entsize := 0 |};
     elf_getdata :=
       [ {| gelf_getdyn := fun _ => None;
            gelf_getverdef := at_offset defs;
            gelf_getverdaux := at_offset auxs;
            gelf_getverneed := fun _ => None;
            gelf_getvernaux := fun _ => None |} ] |}.

(** Version definitions of libfoo: the base record, named after the
    soname, then LIBFOO_1.0 with a single auxiliary entry. *)
Definition libfoo_verdef : Elf_Scn :=
  verdef_scn 2
    [(0,  {| vd_flags := VER_FLG_BASE; vd_cnt := 1; vd_aux := 20; vd_next := 28 |});
     (28, {| vd_flags := 0; vd_cnt := 1; vd_aux := 20; vd_next := 0 |})]
    [(20, {| vda_name := 1; vda_next := 0 |});
     (48, {| vda_name := 13; vda_next := 0 |})].

(** The same, the second record with two auxiliary entries, LIBFOO_1.0
    and LIBFOO_1.1. *)
Definition libfoo_verdef2 : Elf_Scn :=
  verdef_scn 2
    [(0,  {| vd_flags := VER_FLG_BASE; vd_cnt := 1; vd_aux := 20; vd_next := 28 |});
     (28, {| vd_flags := 0; vd_cnt := 2; vd_aux := 20; vd_next := 0 |})]
    [(20, {| vda_name := 1; vda_next := 0 |});
     (48, {| vda_name := 13; vda_next := 8 |});
     (56, {| vda_name := 24; vda_next := 0 |})].

Definition shdr_of (scn : Elf_Scn) : GElf_Shdr :=
  match gelf_getshdr scn with
  | Some shdr => shdr
  | None => {| sh_type := 0; sh_link := 0; sh_info := 0;
               sh_size := 0; sh_entsize := 0 |}
  end.

Definition mk_elf (ehdr : GElf_Ehdr) (phdrs : list GElf_Phdr)
           (raw : list (Z * string)) (scns : list Elf_Scn) : Elf :=
  {| elf_kind := ELF_K_ELF;
     gelf_getehdr := Some ehdr;
     gelf_getphdr := fun i => if i <? 0 then None
                              else nth_error phdrs (Z.to_nat i);
     elf_rawfile := Some {| maxsize := 16384;
                            string_at := fun o => or_empty (lookup raw o) |};
     elf_nextscn := scns;
     elf_strptr := strptr |}.

(** libfoo.so.1: DT_SONAME and the version definitions above. *)
Definition libfoo : Elf :=
  mk_elf ehdr_x86_64 [] []
    [dyn_scn [ {| d_tag := DT_SONAME; d_val := 1 |};
               {| d_tag := 0; d_val := 0 |} ];
     libfoo_verdef].

(** The same object with the two sections in the other order. *)
Definition libfoo' : Elf :=
  mk_elf ehdr_x86_64 [] []
    [libfoo_verdef;
     dyn_scn [ {| d_tag := DT_SONAME; d_val := 1 |};
               {| d_tag := 0; d_val := 0 |} ]].

(** libfoo with the two-entry version record. *)
Definition libfoo_two : Elf :=
  mk_elf ehdr_x86_64 [] []
    [dyn_scn [ {| d_tag := DT_SONAME; d_val := 1 |};
               {| d_tag := 0; d_val := 0 |} ];
     libfoo_verdef2].

Definition ld_so : string := "/lib64/ld-linux-x86-64.so.2".

(** A shared object with a PT_INTERP segment, a needed library and a
    GNU hash table but no classic one. *)
Definition libinterp : Elf :=
  mk_elf ehdr_x86_64_ph
    [ {| p_type := PT_INTERP; p_offset := 568 |} ]
    [(568, ld_so)]
    [dyn_scn [ {| d_tag := DT_NEEDED; d_val := 35 |};
               {| d_tag := DT_GNU_HASH; d_val := 4096 |};
               {| d_tag := 0; d_val := 0 |} ]].

(** The same without the interpreter segment. *)
Definition libgnuhash : Elf :=
  mk_elf ehdr_x86_64 [] []
    [dyn_scn [ {| d_tag := DT_NEEDED; d_val := 35 |};
               {| d_tag := DT_GNU_HASH; d_val := 4096 |};
               {| d_tag := 0; d_val := 0 |} ]].

(** What libelf makes of a text file: a handle of kind ELF_K_NONE. *)
Definition text_file : Elf :=
  {| elf_kind := ELF_K_NONE; gelf_getehdr := None;
     gelf_getphdr := fun _ => None; elf_rawfile := None;
     elf_nextscn := []; elf_strptr := fun _ _ => None |}.

(** A small file system; modes are 0755 and 0644. *)
Definition fs : filesystem := fun fn =>
  if String.eqb fn "/usr/lib64/libfoo.so.1"
  then Some {| fstat := Some 493; elf_begin := Some libfoo |}
  else if String.eqb fn "/usr/lib64/libfoo2.so.1"
  then Some {| fstat := Some 493; elf_begin := Some libfoo' |}
  else if String.eqb fn "/usr/lib64/libfoo_two.so.1"
  then Some {| fstat := Some 493; elf_begin := Some libfoo_two |}
  else if String.eqb fn "/usr/lib64/libinterp.so"
  then Some {| fstat := Some 420; elf_begin := Some libinterp |}
  else if String.eqb fn "/usr/lib64/libgnuhash.so"
  then Some {| fstat := Some 420; elf_begin := Some libgnuhash |}
  else if String.eqb fn "/etc/motd"
  then Some {| fstat := Some 420; elf_begin := Some text_file |}
  else None.


Definition with_interp : flags :=
  {| soname_only := false; fake_soname := true; filter_soname := true;
     require_interp := true; add_arch := false; add_nonarch := true |}.

(** *** Further objects *)

(** A relocatable object, with a segment and a section that must not be
    looked at. *)
Definition ehdr_rel : GElf_Ehdr :=
  {| e_ident := e_ident ehdr_x86_64;
     e_type := 1; e_machine := EM_X86_64; e_phnum := 1 |}.

Definition crt1 : Elf :=
  mk_elf ehdr_rel
    [ {| p_type := PT_INTERP; p_offset := 568 |} ]
    [(568, ld_so)]
    [dyn_scn [ {| d_tag := DT_NEEDED; d_val := 35 |};
               {| d_tag := DT_GNU_HASH; d_val := 4096 |} ]].



Definition verneed_scn (count : Z) (needs : list (Z * GElf_Verneed))
           (auxs : list (Z * GElf_Vernaux)) : Elf_Scn :=
  {| gelf_getshdr :=
       Some {| sh_type := SHT_GNU_verneed; sh_link := 3; sh_info := count;
               sh_size := 16 * Z.of_nat (List.length needs)
                          + 16 * Z.of_nat (List.length auxs);
               sh_entsize := 0 |};
     elf_getdata :=
       [ {| gelf_getdyn := fun _ => None;
            gelf_getverdef := fun _ => None;
            gelf_getverdaux := fun _ => None;
            gelf_getverneed := at_offset needs;
            gelf_getvernaux := at_offset auxs |} ] |}.

(** Version requirements: LIBFOO_1.0 and LIBFOO_1.1 of libfoo.so.1. *)
Definition foo_verneed : Elf_Scn :=
  verneed_scn 1
    [(0, {| vn_cnt := 2; vn_file := 1; vn_aux := 16; vn_next := 0 |})]
    [(16, {| vna_name := 13; vna_next := 16 |});
     (32, {| vna_name := 24; vna_next := 0 |})].

Definition ehdr_exec : GElf_Ehdr :=
  {| e_ident := e_ident ehdr_x86_64;
     e_type := ET_EXEC; e_machine := EM_X86_64; e_phnum := 1 |}.

(** A program linked against libfoo.so.1 and libc.so.6, with an
    interpreter, both hash tables and a DT_DEBUG entry. *)
Definition foo_dynamic : Elf_Scn :=
  dyn_scn [ {| d_tag := DT_NEEDED; d_val := 1 |};
            {| d_tag := DT_NEEDED; d_val := 35 |};
            {| d_tag := DT_HASH; d_val := 2048 |};
            {| d_tag := DT_GNU_HASH; d_val := 4096 |};
            {| d_tag := DT_DEBUG; d_val := 0 |};
            {| d_tag := 0; d_val := 0 |} ].

Definition foo_app : Elf :=
  mk_elf ehdr_exec
    [ {| p_type := PT_INTERP; p_offset := 568 |} ]
    [(568, ld_so)]
    [foo_dynamic; foo_verneed].

(** A shared object without DT_SONAME. *)
Definition libplain : Elf :=
  mk_elf ehdr_x86_64 [] []
    [dyn_scn [ {| d_tag := DT_NEEDED; d_val := 35 |};
               {| d_tag := DT_HASH; d_val := 2048 |};
               {| d_tag := 0; d_val := 0 |} ]].

(** A dynamic section with three DT_SONAME entries, the second and the
    third with offsets that resolve to no string. *)
Definition two_sonames : Elf_Scn :=
  dyn_scn [ {| d_tag := DT_SONAME; d_val := 35 |};
            {| d_tag := DT_SONAME; d_val := 7 |};
            {| d_tag := DT_SONAME; d_val := 1 |};
            {| d_tag := DT_SONAME; d_val := 9 |};
            {| d_tag := DT_HASH; d_val := 2048 |};
            {| d_tag := 0; d_val := 0 |} ].

Definition two_sonames_elf : Elf :=
  mk_elf ehdr_x86_64 [] [] [two_sonames].

(** The first data block of a section. *)
Definition data_of (scn : Elf_Scn) : Elf_Data :=
  hd no_data (elf_getdata scn).

(** The context of a 64-bit x86-64 object before the scans, without and
    with an interpreter path. *)
Definition ei_x86_64 : elfInfo :=
  {| isDSO := true; isExec := 0; gotDEBUG := false; gotHASH := false;
     gotGNUHASH := false; soname := None; interp := None;
     marker := Some "(64bit)"; archmarker := Some "(x86_64)";
     requires := []; provides := [] |}.

Definition ei_gated : elfInfo := set_interp ei_x86_64 (Some ld_so).

(** A shared object whose dynamic section header has a zero entry
    size. *)
Definition zero_entsize_scn : Elf_Scn :=
  {| gelf_getshdr :=
       Some {| sh_type := SHT_DYNAMIC; sh_link := 3; sh_info := 0;
               sh_size := 32; sh_entsize := 0 |};
     elf_getdata := [dyn_data [ {| d_tag := DT_NEEDED; d_val := 35 |};
                                {| d_tag := 0; d_val := 0 |} ]] |}.

Definition libzero : Elf :=
  mk_elf ehdr_x86_64 [] [] [zero_entsize_scn].

(** The file system with the further objects. *)
Definition fs2 : filesystem := fun fn =>
  if String.eqb fn "/usr/lib64/crt1.o"
  then Some {| fstat := Some 420; elf_begin := Some crt1 |}
  else if String.eqb fn "/usr/bin/foo"
  then Some {| fstat := Some 493; elf_begin := Some foo_app |}
  else if String.eqb fn "/usr/lib64/libplain.so.2"
  then Some {| fstat := Some 420; elf_begin := Some libplain |}
  else if String.eqb fn "/usr/lib64/libzero.so"
  then Some {| fstat := Some 420; elf_begin := Some libzero |}
  else fs fn.



(** [--soname-only]. *)
Definition only_soname : flags :=
  {| soname_only := true; fake_soname := true; filter_soname := true;
     require_interp := false; add_arch := false; add_nonarch := true |}.

(** [--add-arch --require-interp]. *)
Definition both_passes : flags :=
  {| soname_only := false; fake_soname := true; filter_soname := true;
     require_interp := true; add_arch := true; add_nonarch := true |}.

End Samples.

(* ================================================================= *)
(** * Properties *)

Module Props.

Import CInt Libc Rpmstring Argv ElfH Libelf Sys Elfdeps Samples.

(** ** Strings *)

Lemma append_empty_r (s : string) : (s ++ "")%string = s.
Proof. induction s as [|c s IH]; simpl; [reflexivity | now rewrite IH]. Qed.

Lemma sprintf_dep (name ver marker : string) :
  rasprintf "%s(%s)%s" [name; ver; marker]
  = (name ++ "(" ++ ver ++ ")" ++ marker)%string.
Proof.
  unfold rasprintf. cbn [sprintf].
  now rewrite append_empty_r.
Qed.

Lemma strstr_contains (needle s : string) :
  is_some (strstr s needle) = contains needle s.
Proof.
  induction s as [|c s IH]; cbn [strstr contains].
  - destruct (prefix needle ""); reflexivity.
  - destruct (prefix needle (String c s)); cbn [is_some orb];
      [reflexivity | exact IH].
Qed.

Lemma sane_scan_all_space (s : string) : negb (sane_scan s) = all_space s.
Proof.
  induction s as [|c s IH]; simpl; [reflexivity|].
  destruct (risspace c); simpl; [exact IH | reflexivity].
Qed.

(** Comparing three characters does not tell "ld64." from "ld64-": both
    tests of [skipSoname] are the test for "ld6". *)
Lemma rstreqn_ld64_dot (s : string) :
  rstreqn s "ld64." 3 = rstreqn s "ld6" 3.
Proof.
  unfold rstreqn.
  destruct s as [|c1 [|c2 [|c3 s]]]; cbn [strncmp]; try reflexivity;
    repeat match goal with
           | |- context [Ascii.eqb ?a ?b] => destruct (Ascii.eqb a b)
           end; reflexivity.
Qed.

Lemma rstreqn_ld64_dash (s : string) :
  rstreqn s "ld64-" 3 = rstreqn s "ld6" 3.
Proof.
  unfold rstreqn.
  destruct s as [|c1 [|c2 [|c3 s]]]; cbn [strncmp]; try reflexivity;
    repeat match goal with
           | |- context [Ascii.eqb ?a ?b] => destruct (Ascii.eqb a b)
           end; reflexivity.
Qed.

Lemma code_inj (a b : ascii) : code a - code b = 0 -> a = b.
Proof.
  unfold code. intros H.
  assert (E : N_of_ascii a = N_of_ascii b) by lia.
  rewrite <- (ascii_N_embedding a), <- (ascii_N_embedding b).
  now rewrite E.
Qed.

(** On a pattern without NUL, comparing as many characters as the
    pattern has is the prefix test. *)
Lemma rstreqn_prefix (p : string) :
  Forall (fun c => code c <> 0) (list_ascii_of_string p) ->
  forall s, rstreqn s p (String.length p) = prefix p s.
Proof.
  unfold rstreqn.
  induction p as [|a p IH]; intros Hnz s; [destruct s; reflexivity|].
  inversion Hnz as [|? ? Ha Hp]; subst.
  destruct s as [|c s]; cbn [strncmp String.length prefix].
  - apply Z.eqb_neq. lia.
  - destruct (Ascii.eqb_spec c a) as [->|Hne].
    + destruct (ascii_dec a a) as [_|Hn]; [now apply IH | contradiction].
    + destruct (ascii_dec a c) as [E|_]; [now subst|].
      apply Z.eqb_neq. intros H. now apply code_inj in H.
Qed.

Ltac nonzero_codes :=
  repeat constructor; unfold code; cbn; discriminate.

Lemma rstreqn_lib (s : string) : rstreqn s "lib" 3 = starts_with s "lib".
Proof. apply (rstreqn_prefix "lib"). nonzero_codes. Qed.

Lemma rstreqn_ld_dot (s : string) : rstreqn s "ld." 3 = starts_with s "ld.".
Proof. apply (rstreqn_prefix "ld."). nonzero_codes. Qed.

Lemma rstreqn_ld_dash (s : string) : rstreqn s "ld-" 3 = starts_with s "ld-".
Proof. apply (rstreqn_prefix "ld-"). nonzero_codes. Qed.

Lemma rstreqn_ld6 (s : string) : rstreqn s "ld6" 3 = starts_with s "ld6".
Proof. apply (rstreqn_prefix "ld6"). nonzero_codes. Qed.

(** ** skipSoname *)

(** What [skipSoname] computes: the documented rule with the single
    three-character prefix "ld6" in the place of "ld64." and "ld64-". *)
Lemma skipSoname_char (opt : flags) (s : string) :
  skipSoname opt s
  = all_space s
    || (filter_soname opt && negb (contains ".so" s))
    || (filter_soname opt
        && negb (starts_with s "lib")
        && negb (starts_with s "ld." || starts_with s "ld-"
                 || starts_with s "ld6")).
Proof.
  unfold skipSoname.
  rewrite sane_scan_all_space, strstr_contains, rstreqn_ld64_dot,
    rstreqn_ld64_dash, rstreqn_lib, rstreqn_ld_dot, rstreqn_ld_dash,
    rstreqn_ld6.
  destruct (all_space s), (filter_soname opt), (contains ".so" s),
    (starts_with s "lib"), (starts_with s "ld."), (starts_with s "ld-"),
    (starts_with s "ld6"); reflexivity.
Qed.

(** With strict filtering off, exactly the blank names are dropped. *)
Lemma skipSoname_unfiltered (opt : flags) (s : string) :
  filter_soname opt = false -> skipSoname opt s = all_space s.
Proof.
  intros H. rewrite skipSoname_char, H. cbn.
  now rewrite !orb_false_r.
Qed.

(** C6, at the input where the code leaves the documented rule: under
    strict filtering the name "ld6x.so" starts with neither "lib" nor
    any of "ld.", "ld-", "ld64.", "ld64-", so the rule rejects it; the
    code compares only three characters of "ld64." and keeps it. *)
Theorem skipSoname_ld6_kept :
  filter_soname default_flags = true
  /\ skipSoname_spec default_flags "ld6x.so" = true
  /\ skipSoname default_flags "ld6x.so" = false.
Proof. repeat split. Qed.

(** ** addDep *)

(** C7: a name that passes the filter is appended bare when version
    and marker are both absent, and as [name(version)marker] otherwise,
    an absent part being the empty string. *)
Theorem addDep_string (opt : flags) (deps : ARGV_t) (name : string)
        (ver marker : option string) :
  skipSoname opt name = false ->
  addDep opt deps name ver marker
  = deps ++ [match ver, marker with
             | None, None => name
             | _, _ => (name ++ "(" ++ or_empty ver ++ ")"
                             ++ or_empty marker)%string
             end].
Proof.
  intros Hkeep. unfold addDep, argvAdd. rewrite Hkeep.
  destruct ver, marker; cbn [is_some orb]; try rewrite sprintf_dep;
    reflexivity.
Qed.

Lemma addDep_string_witness :
  skipSoname default_flags "libc.so.6" = false
  /\ addDep default_flags ["libm.so.6()(64bit)"] "libc.so.6"
            None (Some "(64bit)")
     = ["libm.so.6()(64bit)"; "libc.so.6()(64bit)"]
  /\ addDep default_flags [] "libc.so.6" (Some "GLIBC_2.2.5") None
     = ["libc.so.6(GLIBC_2.2.5)"]
  /\ addDep default_flags [] "libc.so.6" None None = ["libc.so.6"].
Proof.
  split; [reflexivity|].
  split; [|split].
  - apply (@addDep_string default_flags ["libm.so.6()(64bit)"] "libc.so.6"
                          None (Some "(64bit)")). reflexivity.
  - apply (@addDep_string default_flags [] "libc.so.6"
                          (Some "GLIBC_2.2.5") None). reflexivity.
  - apply (@addDep_string default_flags [] "libc.so.6" None None).
    reflexivity.
Defined.

(** A rejected name adds nothing. *)
Lemma addDep_skipped (opt : flags) (deps : ARGV_t) (name : string)
      (ver marker : option string) :
  skipSoname opt name = true -> addDep opt deps name ver marker = deps.
Proof. intros H. unfold addDep. now rewrite H. Qed.

(** ** mkarchmarker *)

(** C8, at the inputs where the marker is not bracketed: a big-endian
    ARM header gives "armeb" and a 32-bit PA-RISC header gives "hppa",
    neither in parentheses, next to "(arm)" and "(hppa64)". *)
Theorem mkarchmarker_unbracketed :
  mkarchmarker ehdr_armeb = "armeb"
  /\ bracketed (mkarchmarker ehdr_armeb) = false
  /\ mkarchmarker ehdr_hppa = "hppa"
  /\ bracketed (mkarchmarker ehdr_hppa) = false.
Proof. repeat split. Qed.

(** Every other header gets a bracketed marker. *)
Lemma mkarchmarker_bracketed (ehdr : GElf_Ehdr) :
  bracketed (mkarchmarker ehdr) = false ->
  (e_machine ehdr = EM_ARM /\ ident ehdr EI_DATA <> ELFDATA2LSB)
  \/ (e_machine ehdr = EM_PARISC /\ ident ehdr EI_CLASS <> ELFCLASS64).
Proof.
  unfold mkarchmarker.
  repeat match goal with
         | |- context [if ?c then _ else _] =>
             let E := fresh "E" in destruct c eqn:E
         end; cbn; try discriminate; intros _.
  - left. split; [now apply Z.eqb_eq | now apply Z.eqb_neq].
  - right. split; [now apply Z.eqb_eq | now apply Z.eqb_neq].
Qed.

(** The mappings that the documentation lists. *)
Lemma mkarchmarker_table (ehdr : GElf_Ehdr) :
  let is64 := ident ehdr EI_CLASS =? ELFCLASS64 in
  let isle := ident ehdr EI_DATA =? ELFDATA2LSB in
  (e_machine ehdr = EM_X86_64 -> mkarchmarker ehdr = "(x86_64)")
  /\ (e_machine ehdr = EM_AARCH64 ->
      mkarchmarker ehdr = if isle then "(aarch64)" else "(aarch64_be)")
  /\ (e_machine ehdr = EM_PPC64 ->
      mkarchmarker ehdr = if isle then "(ppc64le)" else "(ppc64)")
  /\ (e_machine ehdr = EM_MIPS -> is64 = true -> isle = true ->
      mkarchmarker ehdr = "(mips64le)")
  /\ (e_machine ehdr = EM_SPARC -> is64 = true ->
      mkarchmarker ehdr = "(sparc64)").
Proof.
  unfold mkarchmarker; cbv zeta.
  repeat split; intros ->; try (intros -> ); try (intros -> ); reflexivity.
Qed.

(** Any other machine code falls back to the unknown markers. *)
Lemma mkarchmarker_unknown (ehdr : GElf_Ehdr) :
  existsb (Z.eqb (e_machine ehdr)) known_machines = false ->
  mkarchmarker ehdr
  = if ident ehdr EI_CLASS =? ELFCLASS64 then "(unknown64)" else "(unknown)".
Proof.
  unfold known_machines; cbn [existsb]. intros H.
  repeat match type of H with
         | (_ || _) = false =>
             let E := fresh "E" in
             apply orb_false_elim in H; destruct H as [E H]
         end.
  unfold mkarchmarker; cbv zeta.
  repeat match goal with
         | E : (e_machine ehdr =? _) = false |- _ => rewrite E; clear E
         end.
  reflexivity.
Qed.

(** ** What the scans preserve *)

Lemma has_tag_app (t : Z) (l1 l2 : list Z) :
  has_tag t (l1 ++ l2) = has_tag t l1 || has_tag t l2.
Proof. apply existsb_app. Qed.

Lemma scan_rel_refl (ei : elfInfo) : scan_rel [] ei ei.
Proof.
  unfold scan_rel; cbn. rewrite !orb_false_r. repeat split; reflexivity.
Qed.

Lemma scan_rel_trans (t1 t2 : list Z) (a b c : elfInfo) :
  scan_rel t1 a b -> scan_rel t2 b c -> scan_rel (t1 ++ t2) a c.
Proof.
  unfold scan_rel, genRequires.
  intros (D1 & X1 & I1 & M1 & A1 & G1 & H1 & R1)
         (D2 & X2 & I2 & M2 & A2 & G2 & H2 & R2).
  rewrite !has_tag_app, !orb_assoc, <- G1, <- H1.
  repeat split; try congruence.
  intros Hg. rewrite R2, R1; auto. now rewrite I1, X1.
Qed.



Lemma scan_rel_soname (ei : elfInfo) (s : option string) :
  scan_rel [] ei (set_soname ei s).
Proof. exact (scan_rel_refl ei). Qed.

Lemma scan_rel_requires (ei : elfInfo) (r : ARGV_t) :
  genRequires ei = true -> scan_rel [] ei (set_requires ei r).
Proof.
  intros Hg. unfold scan_rel; cbn. rewrite !orb_false_r.
  repeat split. congruence.
Qed.

Lemma scan_rel_dynEntry (opt : flags) (elf : Elf) (shdr : GElf_Shdr)
      (dyn : GElf_Dyn) (ei : elfInfo) :
  scan_rel [d_tag dyn] ei (dynEntry opt elf shdr dyn ei).
Proof.
  assert (Hplain : forall ei', scan_rel [] ei ei' ->
            (d_tag dyn =? DT_HASH) = false ->
            (d_tag dyn =? DT_GNU_HASH) = false ->
            scan_rel [d_tag dyn] ei ei').
  { unfold scan_rel, has_tag; cbn [existsb].
    intros ei' (D & X & I & M & A & G & H & R) E1 E2.
    rewrite (Z.eqb_sym DT_GNU_HASH), (Z.eqb_sym DT_HASH), E1, E2.
    repeat split; assumption. }
  unfold dynEntry.
  destruct (d_tag dyn =? DT_HASH) eqn:E1.
  { apply Z.eqb_eq in E1. rewrite E1. unfold scan_rel; cbn.
    rewrite orb_false_r, orb_true_r. repeat split. }
  destruct (d_tag dyn =? DT_GNU_HASH) eqn:E2.
  { apply Z.eqb_eq in E2. rewrite E2. unfold scan_rel; cbn.
    rewrite orb_false_r, orb_true_r. repeat split. }
  destruct (d_tag dyn =? DT_DEBUG);
    [apply Hplain; auto; exact (scan_rel_refl ei)|].
  destruct (d_tag dyn =? DT_SONAME).
  { destruct (elf_strptr elf (sh_link shdr) (d_val dyn));
      apply Hplain; auto; exact (scan_rel_refl ei). }
  destruct (d_tag dyn =? DT_NEEDED);
    [|apply Hplain; auto; exact (scan_rel_refl ei)].
  destruct (genRequires ei) eqn:Hg;
    [|apply Hplain; auto; exact (scan_rel_refl ei)].
  destruct (elf_strptr elf (sh_link shdr) (d_val dyn));
    apply Hplain; auto;
    [now apply scan_rel_requires | exact (scan_rel_refl ei)].
Qed.

Lemma dynLoop_scan (opt : flags) (elf : Elf) (shdr : GElf_Shdr)
      (data : Elf_Data) (n : nat) :
  forall (i : Z) (ei : elfInfo),
    i + Z.of_nat n <= INT_MAX ->
    exists ei', dynLoop opt elf shdr data n i ei = Ret ei'
                /\ scan_rel (dynTagsLoop data n i) ei ei'.
Proof.
  induction n as [|n IH]; intros i ei Hi; cbn [dynLoop dynTagsLoop].
  - exists ei. split; [reflexivity | apply scan_rel_refl].
  - destruct (gelf_getdyn data i) as [dyn|].
    + assert (E : (i =? INT_MAX) = false) by (apply Z.eqb_neq; lia).
      rewrite E.
      destruct (IH (i + 1) (dynEntry opt elf shdr dyn ei)) as (ei' & R & S');
        [lia|].
      exists ei'. split; [exact R|].
      exact (scan_rel_trans (scan_rel_dynEntry opt elf shdr dyn ei) S').
    + exists ei. split; [reflexivity | apply scan_rel_refl].
Qed.

Lemma processDynamic_scan (opt : flags) (elf : Elf) (scn : Elf_Scn)
      (shdr : GElf_Shdr) (ei : elfInfo) :
  0 < sh_entsize shdr ->
  sh_size shdr / sh_entsize shdr <= INT_MAX ->
  exists ei',
    processDynamic opt elf scn shdr ei = Ret ei'
    /\ scan_rel (flat_map (fun data =>
                             dynTagsLoop data
                               (Z.to_nat (sh_size shdr / sh_entsize shdr)) 0)
                          (elf_getdata scn)) ei ei'.
Proof.
  intros Hent Hcnt. unfold processDynamic.
  assert (E : (sh_entsize shdr =? 0) = false) by (apply Z.eqb_neq; lia).
  rewrite E. revert ei.
  induction (elf_getdata scn) as [|data rest IH]; intros ei;
    cbn [foldM flat_map].
  - exists ei. split; [reflexivity | apply scan_rel_refl].
  - destruct (dynLoop_scan opt elf shdr data
                (Z.to_nat (sh_size shdr / sh_entsize shdr)) 0 ei)
      as (ei1 & R1 & S1); [unfold INT_MAX in *; lia|].
    rewrite R1; cbn [bind].
    destruct (IH ei1) as (ei' & R & S').
    exists ei'. split; [exact R | exact (scan_rel_trans S1 S')].
Qed.





Lemma countdown_returns (count : Z) :
  (to_int count =? INT_MIN) = false ->
  countdown count = Ret (Z.to_nat (to_int count)).
Proof. intros H. unfold countdown. now rewrite H. Qed.






(** ** The program header scan *)



(** ** processFile on a scanned object *)

Lemma processFile_object (opt : flags) (fs : filesystem) (fn : string)
      (dtype : bool) (st_mode : Z) (elf : Elf) (ehdr : GElf_Ehdr) :
  object_of fs fn = Some (st_mode, elf, ehdr) ->
  processFile opt fs fn dtype
  = let* ei := scanObject opt elf ehdr st_mode in
    let ei := addInterp opt (addSonameProvide opt fn (addGnuHash opt ei)) in
    Ret (0, if dtype then requires ei else provides ei).
Proof.
  unfold object_of, processFile.
  destruct (fs fn) as [fdno|]; [|discriminate].
  destruct (fstat fdno) as [m|]; [|discriminate].
  destruct (elf_begin fdno) as [e|]; [|discriminate].
  destruct (Elf_Kind_eqb (elf_kind e) ELF_K_ELF); [|discriminate].
  destruct (gelf_getehdr e) as [h|]; [|discriminate].
  intros H. injection H as -> -> ->. reflexivity.
Qed.



(** ** The policy steps after the scan *)







(** ** The documented example *)

(** C1, as documented, fails: for libfoo.so.1 with its base record and
    the version LIBFOO_1.0, under the default flags (no architecture
    pass, word-size pass on) on 64-bit x86-64, provides-mode does not
    print [libfoo.so.1(64bit)] and then
    [libfoo.so.1(LIBFOO_1.0)(64bit)]. *)
Lemma libfoo_provides_not_documented :
  add_arch default_flags = false
  /\ add_nonarch default_flags = true
  /\ mkmarker ehdr_x86_64 = Some "(64bit)"
  /\ processFile default_flags fs "/usr/lib64/libfoo.so.1" false
     <> Ret (0, ["libfoo.so.1(64bit)"; "libfoo.so.1(LIBFOO_1.0)(64bit)"]).
Proof. repeat split. vm_compute. discriminate. Qed.

(** C1, amended: the versioned entry comes first, since the sections
    are scanned before the soname is provided, and the soname entry
    keeps the empty version slot: [libfoo.so.1(LIBFOO_1.0)(64bit)], then
    [libfoo.so.1()(64bit)].  The order of the dynamic and the version
    definition sections makes no difference. *)
Theorem libfoo_provides :
  processFile default_flags fs "/usr/lib64/libfoo.so.1" false
  = Ret (0, ["libfoo.so.1(LIBFOO_1.0)(64bit)"; "libfoo.so.1()(64bit)"])
  /\ processFile default_flags fs "/usr/lib64/libfoo2.so.1" false
     = Ret (0, ["libfoo.so.1(LIBFOO_1.0)(64bit)"; "libfoo.so.1()(64bit)"]).
Proof. split; vm_compute; reflexivity. Qed.

(** ** Version definitions *)

(** C5, at the input where the code leaves the claim: a non-base
    record with the two auxiliary names LIBFOO_1.0 and LIBFOO_1.1.  The
    loop never moves to the second auxiliary entry, so LIBFOO_1.0 is
    provided twice and LIBFOO_1.1 not at all. *)
Theorem processVerDef_repeats_first_name :
  (exists ei,
      processVerDef default_flags libfoo_two libfoo_verdef2
                    (shdr_of libfoo_verdef2) ei_zero = Ret ei
      /\ provides ei = ["libfoo.so.1(LIBFOO_1.0)"; "libfoo.so.1(LIBFOO_1.0)"])
  /\ processFile default_flags fs "/usr/lib64/libfoo_two.so.1" false
     = Ret (0, ["libfoo.so.1(LIBFOO_1.0)(64bit)";
                "libfoo.so.1(LIBFOO_1.0)(64bit)";
                "libfoo.so.1()(64bit)"]).
Proof.
  split; [eexists; split|]; vm_compute; reflexivity.
Qed.

(** ** Exit status *)




(** ** The requires gate *)




(** ** The loader token *)




(** ** The interpreter requirement *)



End Props.


(* ================================================================= *)
(** * Further properties of the scans *)

Module More.

Import CInt Libc Rpmstring Argv ElfH Libelf Sys Elfdeps Samples Props.

(** ** skipSoname and the markers *)

(** X1: [skipSoname] drops a name exactly when it is blank, or strict
    filtering is on and the name has no ".so", or strict filtering is on
    and the name starts with none of "lib", "ld.", "ld-" and "ld6". *)
Theorem skipSoname_exact (opt : flags) (s : string) :
  skipSoname opt s = true
  <-> all_space s = true
      \/ (filter_soname opt = true /\ contains ".so" s = false)
      \/ (filter_soname opt = true
          /\ starts_with s "lib" = false /\ starts_with s "ld." = false
          /\ starts_with s "ld-" = false /\ starts_with s "ld6" = false).
Proof.
  rewrite skipSoname_char.
  destruct (all_space s), (filter_soname opt), (contains ".so" s),
    (starts_with s "lib"), (starts_with s "ld."), (starts_with s "ld-"),
    (starts_with s "ld6"); cbn; intuition discriminate.
Qed.

(** X2: the architecture marker lacks its parentheses for big-endian ARM
    and for 32-bit PA-RISC, and for no other header. *)
Theorem mkarchmarker_bracketed_iff (ehdr : GElf_Ehdr) :
  bracketed (mkarchmarker ehdr) = false
  <-> (e_machine ehdr = EM_ARM /\ ident ehdr EI_DATA <> ELFDATA2LSB)
      \/ (e_machine ehdr = EM_PARISC /\ ident ehdr EI_CLASS <> ELFCLASS64).
Proof.
  split; [apply mkarchmarker_bracketed|].
  unfold mkarchmarker.
  intros [[Hm Hd] | [Hm Hc]]; rewrite Hm; cbn -[ident].
  - apply Z.eqb_neq in Hd. now rewrite Hd.
  - apply Z.eqb_neq in Hc. now rewrite Hc.
Qed.

(** ** basename *)

Lemma strrchr_no_slash (s : string) :
  no_slash s = true -> strrchr s "/" = None.
Proof.
  induction s as [|c s IH]; cbn [no_slash strrchr]; [reflexivity|].
  intros H. apply andb_true_iff in H. destruct H as [Hc Hs].
  rewrite (IH Hs). apply negb_true_iff in Hc. now rewrite Hc.
Qed.

Lemma strrchr_last_slash (dir name : string) :
  no_slash name = true ->
  strrchr (dir ++ String "/" name) "/" = Some (String "/" name).
Proof.
  intros Hn. induction dir as [|c dir IH]; cbn [append strrchr].
  - now rewrite (strrchr_no_slash name Hn).
  - now rewrite IH.
Qed.

(** X3: the name that stands in for a missing soname is the last
    component of the path: what follows the last slash, and the whole
    path when it has no slash. *)
Theorem basename_last_component (dir name : string) :
  no_slash name = true ->
  basename (dir ++ String "/" name) = name /\ basename name = name.
Proof.
  intros Hn. unfold basename.
  now rewrite (strrchr_last_slash dir name Hn), (strrchr_no_slash name Hn).
Qed.

Lemma basename_last_component_witness :
  basename "/usr/lib64/libfoo.so.1" = "libfoo.so.1"
  /\ basename "libfoo.so.1" = "libfoo.so.1".
Proof.
  apply (@basename_last_component "/usr/lib64" "libfoo.so.1"). reflexivity.
Defined.

(** ** The two input modes of main *)




(** ** Objects that are not scanned *)

(** X5: an ELF object that is neither a shared object nor an
    executable (a relocatable or a core file) prints nothing in either
    mode, under any flags, and succeeds. *)
Theorem other_kind_is_noop (opt : flags) (fs : filesystem) (fn : string)
        (dtype : bool) (st_mode : Z) (elf : Elf) (ehdr : GElf_Ehdr) :
  object_of fs fn = Some (st_mode, elf, ehdr) ->
  e_type ehdr <> ET_DYN ->
  e_type ehdr <> ET_EXEC ->
  processFile opt fs fn dtype = Ret (0, []).
Proof.
  intros Ho Hd He.
  rewrite (@processFile_object opt fs fn dtype st_mode elf ehdr Ho).
  unfold scanObject.
  apply Z.eqb_neq in Hd, He. rewrite Hd, He. cbn.
  now destruct dtype.
Qed.

Lemma other_kind_is_noop_witness :
  processFile default_flags fs2 "/usr/lib64/crt1.o" true = Ret (0, [])
  /\ processFile with_interp fs2 "/usr/lib64/crt1.o" false = Ret (0, []).
Proof.
  split.
  - apply (@other_kind_is_noop default_flags fs2 "/usr/lib64/crt1.o" true
             420 crt1 ehdr_rel); [reflexivity | discriminate | discriminate].
  - apply (@other_kind_is_noop with_interp fs2 "/usr/lib64/crt1.o" false
             420 crt1 ehdr_rel); [reflexivity | discriminate | discriminate].
Defined.

(** ** The program header scan *)






(** ** The version scans in soname-only mode and behind the gate *)

Lemma verdefAuxLoop_soname_only (opt : flags) (elf : Elf) (shdr : GElf_Shdr)
      (data : Elf_Data) (def : GElf_Verdef) (j : nat) :
  soname_only opt = true ->
  forall (auxoffset : Z) (st : option string * elfInfo),
    snd (verdefAuxLoop opt elf shdr data def j auxoffset st) = snd st.
Proof.
  intros Hs. induction j as [|j IH]; intros auxoffset st;
    cbn [verdefAuxLoop]; [reflexivity|].
  destruct (gelf_getverdaux data (to_int auxoffset)) as [aux|];
    [|reflexivity].
  destruct (elf_strptr elf (sh_link shdr) (vda_name aux)) as [s|];
    [|reflexivity].
  rewrite Hs; cbn [negb].
  destruct (negb (Z.land (vd_flags def) VER_FLG_BASE =? 0)).
  - now rewrite IH.
  - destruct (fst st); apply IH.
Qed.

Lemma verdefLoop_soname_only (opt : flags) (elf : Elf) (shdr : GElf_Shdr)
      (data : Elf_Data) (i : nat) :
  soname_only opt = true ->
  forall (offset : Z) (st : option string * elfInfo),
    snd (verdefLoop opt elf shdr data i offset st) = snd st.
Proof.
  intros Hs. induction i as [|i IH]; intros offset st;
    cbn [verdefLoop]; [reflexivity|].
  destruct (gelf_getverdef data (to_int offset)) as [def|]; [|reflexivity].
  now rewrite IH, verdefAuxLoop_soname_only.
Qed.

Lemma verneedAuxLoop_closed (opt : flags) (elf : Elf) (shdr : GElf_Shdr)
      (data : Elf_Data) (so : option string) (j : nat) :
  forall (auxoffset : Z) (ei : elfInfo),
    soname_only opt = true \/ genRequires ei = false ->
    verneedAuxLoop opt elf shdr data so j auxoffset ei = ei.
Proof.
  induction j as [|j IH]; intros auxoffset ei Hc;
    cbn [verneedAuxLoop]; [reflexivity|].
  destruct (gelf_getvernaux data (to_int auxoffset)) as [aux|];
    [|reflexivity].
  destruct (elf_strptr elf (sh_link shdr) (vna_name aux)) as [s|];
    [|reflexivity].
  assert (E : (genRequires ei && negb (soname_only opt)) = false).
  { destruct Hc as [-> | ->]; [apply andb_false_r | reflexivity]. }
  rewrite E. destruct so; now apply IH.
Qed.

Lemma verneedLoop_closed (opt : flags) (elf : Elf) (shdr : GElf_Shdr)
      (data : Elf_Data) (i : nat) :
  forall (offset : Z) (st : option string * elfInfo),
    soname_only opt = true \/ genRequires (snd st) = false ->
    snd (verneedLoop opt elf shdr data i offset st) = snd st.
Proof.
  induction i as [|i IH]; intros offset st Hc;
    cbn [verneedLoop]; [reflexivity|].
  destruct (gelf_getverneed data (to_int offset)) as [need|]; [|reflexivity].
  destruct (elf_strptr elf (sh_link shdr) (vn_file need)) as [s|];
    [|reflexivity].
  rewrite IH; cbn [snd]; rewrite verneedAuxLoop_closed; auto.
Qed.

Lemma fold_unchanged (count : Z)
      (body : Elf_Data -> nat -> Z -> option string * elfInfo
              -> option string * elfInfo)
      (P : elfInfo -> Prop) (datas : list Elf_Data) :
  (to_int count =? INT_MIN) = false ->
  (forall data n off st, P (snd st) -> snd (body data n off st) = snd st) ->
  forall st, P (snd st) ->
  exists st',
    foldM (fun st data => let* n := countdown count in
                          Ret (body data n 0 st)) st datas = Ret st'
    /\ snd st' = snd st.
Proof.
  intros Hc Hbody. rewrite (countdown_returns _ Hc).
  induction datas as [|data rest IH]; intros st HP; cbn [foldM bind].
  - exists st. now split.
  - destruct (IH (body data (Z.to_nat (to_int count)) 0 st))
      as (st' & R & E); [now rewrite Hbody|].
    exists st'. split; [exact R|]. now rewrite E, Hbody.
Qed.

(** X7: in soname-only mode both version scans leave the object context
    exactly as it was, and so does the version requirement scan behind a
    closed requires gate: no versioned entries at all. *)
Theorem version_scans_noop (opt : flags) (elf : Elf) (scn : Elf_Scn)
        (shdr : GElf_Shdr) (ei : elfInfo) :
  (to_int (sh_info shdr) =? INT_MIN) = false ->
  (soname_only opt = true ->
   processVerDef opt elf scn shdr ei = Ret ei
   /\ processVerNeed opt elf scn shdr ei = Ret ei)
  /\ (genRequires ei = false ->
      processVerNeed opt elf scn shdr ei = Ret ei).
Proof.
  intros Hc.
  assert (Hneed : soname_only opt = true \/ genRequires ei = false ->
                  processVerNeed opt elf scn shdr ei = Ret ei).
  { intros Hclosed. unfold processVerNeed.
    destruct (@fold_unchanged (sh_info shdr) (verneedLoop opt elf shdr)
                (fun e => e = ei) (elf_getdata scn) Hc) with (st := (@None string, ei))
      as (st' & R & E).
    - intros data n off st Hst. apply verneedLoop_closed.
      now rewrite Hst.
    - reflexivity.
    - rewrite R; cbn [bind]. now rewrite E. }
  split; [intros Hs; split | intros Hg]; auto.
  unfold processVerDef.
  destruct (@fold_unchanged (sh_info shdr) (verdefLoop opt elf shdr)
              (fun _ => True) (elf_getdata scn) Hc) with (st := (@None string, ei))
    as (st' & R & E).
  - intros data n off st _. now apply verdefLoop_soname_only.
  - exact I.
  - rewrite R; cbn [bind]. now rewrite E.
Qed.

Lemma version_scans_noop_witness :
  processVerDef only_soname libfoo libfoo_verdef (shdr_of libfoo_verdef)
                ei_x86_64 = Ret ei_x86_64
  /\ processVerNeed only_soname foo_app foo_verneed (shdr_of foo_verneed)
                    ei_x86_64 = Ret ei_x86_64
  /\ processVerNeed default_flags foo_app foo_verneed (shdr_of foo_verneed)
                    ei_gated = Ret ei_gated.
Proof.
  split; [|split].
  - exact (proj1 (proj1 (@version_scans_noop only_soname libfoo libfoo_verdef
                           (shdr_of libfoo_verdef) ei_x86_64 eq_refl)
                        eq_refl)).
  - exact (proj2 (proj1 (@version_scans_noop only_soname foo_app foo_verneed
                           (shdr_of foo_verneed) ei_x86_64 eq_refl)
                        eq_refl)).
  - exact (proj2 (@version_scans_noop default_flags foo_app foo_verneed
                    (shdr_of foo_verneed) ei_gated eq_refl) eq_refl).
Defined.

(** ** The lines of addDep *)

Lemma addDep_dep_string (opt : flags) (deps : ARGV_t) (name : string)
      (ver marker : option string) :
  addDep opt deps name ver marker
  = deps ++ (if skipSoname opt name then []
             else [dep_string name ver marker]).
Proof.
  unfold addDep, argvAdd, dep_string, decorated.
  destruct (skipSoname opt name); [now rewrite app_nil_r|].
  destruct ver, marker; cbn [is_some orb]; try rewrite sprintf_dep;
    reflexivity.
Qed.

Lemma addDeps_lines (opt : flags) (deps : ARGV_t) (ei : elfInfo)
      (name : string) (ver : option string) :
  addDeps opt deps ei name ver
  = deps ++ (if skipSoname opt name then []
             else marker_lines opt name ver (marker ei) (archmarker ei)).
Proof.
  unfold addDeps, marker_lines. rewrite !addDep_dep_string.
  destruct (skipSoname opt name), (add_nonarch opt), (add_arch opt);
    cbn [app]; rewrite ?app_nil_r, <- ?app_assoc; reflexivity.
Qed.

Lemma addDeps_app (opt : flags) (deps : ARGV_t) (ei : elfInfo)
      (name : string) (ver : option string) :
  addDeps opt deps ei name ver = deps ++ addDeps opt [] ei name ver.
Proof. now rewrite (addDeps_lines opt deps), (addDeps_lines opt []). Qed.

Lemma addDeps_ext (opt : flags) (deps : ARGV_t) (ei ei' : elfInfo)
      (name : string) (ver : option string) :
  marker ei' = marker ei -> archmarker ei' = archmarker ei ->
  addDeps opt deps ei' name ver = addDeps opt deps ei name ver.
Proof. intros Hm Ha. now rewrite !addDeps_lines, Hm, Ha. Qed.

(** ** Version definitions with several auxiliary entries *)

Lemma verdefAuxLoop_nonbase (opt : flags) (elf : Elf) (shdr : GElf_Shdr)
      (data : Elf_Data) (def : GElf_Verdef) (auxoffset : Z)
      (aux : GElf_Verdaux) (s so : string) (ei0 : elfInfo) (j : nat) :
  Z.land (vd_flags def) VER_FLG_BASE = 0 ->
  gelf_getverdaux data (to_int auxoffset) = Some aux ->
  elf_strptr elf (sh_link shdr) (vda_name aux) = Some s ->
  soname_only opt = false ->
  forall ei,
    marker ei = marker ei0 -> archmarker ei = archmarker ei0 ->
    provides (snd (verdefAuxLoop opt elf shdr data def j auxoffset
                                 (Some so, ei)))
    = provides ei ++ List.concat (repeat (addDeps opt [] ei0 so (Some s)) j).
Proof.
  intros Hnb Haux Hs Hso.
  induction j as [|j IH]; intros ei Hm Ha; cbn [verdefAuxLoop repeat List.concat].
  - cbn. now rewrite app_nil_r.
  - rewrite Haux, Hs, Hnb, Hso. cbn [Z.eqb negb fst snd].
    rewrite IH by assumption. cbn [provides set_provides].
    rewrite (addDeps_app opt (provides ei)), <- app_assoc.
    now rewrite (@addDeps_ext opt [] ei0 ei so (Some s) Hm Ha).
Qed.

(** X8: in a version definition record that is not the base record, the
    auxiliary offset never advances: a record of [vd_cnt] entries
    provides the version name of its first entry [vd_cnt] times, and no
    other name. *)
Theorem verdef_nonbase_repeats (opt : flags) (elf : Elf) (shdr : GElf_Shdr)
        (data : Elf_Data) (def : GElf_Verdef) (auxoffset : Z)
        (aux : GElf_Verdaux) (s so : string) (ei : elfInfo) (j : nat) :
  Z.land (vd_flags def) VER_FLG_BASE = 0 ->
  gelf_getverdaux data (to_int auxoffset) = Some aux ->
  elf_strptr elf (sh_link shdr) (vda_name aux) = Some s ->
  soname_only opt = false ->
  provides (snd (verdefAuxLoop opt elf shdr data def j auxoffset
                               (Some so, ei)))
  = provides ei ++ List.concat (repeat (addDeps opt [] ei so (Some s)) j).
Proof.
  intros Hnb Haux Hs Hso.
  now apply (@verdefAuxLoop_nonbase opt elf shdr data def auxoffset aux s so
               ei j Hnb Haux Hs Hso ei).
Qed.

Lemma verdef_nonbase_repeats_witness :
  provides
    (snd (verdefAuxLoop default_flags libfoo_two (shdr_of libfoo_verdef2)
            (data_of libfoo_verdef2)
            {| vd_flags := 0; vd_cnt := 2; vd_aux := 20; vd_next := 0 |}
            2 48 (Some "libfoo.so.1", ei_x86_64)))
  = ["libfoo.so.1(LIBFOO_1.0)(64bit)"; "libfoo.so.1(LIBFOO_1.0)(64bit)"].
Proof.
  apply (@verdef_nonbase_repeats default_flags libfoo_two
           (shdr_of libfoo_verdef2) (data_of libfoo_verdef2)
           {| vd_flags := 0; vd_cnt := 2; vd_aux := 20; vd_next := 0 |}
           48 {| vda_name := 13; vda_next := 8 |}
           "LIBFOO_1.0" "libfoo.so.1" ei_x86_64 2); reflexivity.
Defined.

(** ** Needed libraries *)

Lemma dynEntry_requires (opt : flags) (elf : Elf) (shdr : GElf_Shdr)
      (dyn : GElf_Dyn) (ei : elfInfo) :
  genRequires ei = true ->
  requires (dynEntry opt elf shdr dyn ei)
  = requires ei ++ neededDeps opt elf shdr ei dyn.
Proof.
  intros Hg. unfold dynEntry, neededDeps.
  destruct (d_tag dyn =? DT_HASH) eqn:E1;
    [apply Z.eqb_eq in E1; rewrite E1; cbn; now rewrite app_nil_r|].
  destruct (d_tag dyn =? DT_GNU_HASH) eqn:E2;
    [apply Z.eqb_eq in E2; rewrite E2; cbn; now rewrite app_nil_r|].
  destruct (d_tag dyn =? DT_DEBUG) eqn:E3;
    [apply Z.eqb_eq in E3; rewrite E3; cbn; now rewrite app_nil_r|].
  destruct (d_tag dyn =? DT_SONAME) eqn:E4.
  { apply Z.eqb_eq in E4; rewrite E4; cbn.
    destruct (elf_strptr elf (sh_link shdr) (d_val dyn)); cbn;
      now rewrite app_nil_r. }
  destruct (d_tag dyn =? DT_NEEDED); [|now rewrite app_nil_r].
  rewrite Hg.
  destruct (elf_strptr elf (sh_link shdr) (d_val dyn));
    cbn [requires set_requires]; [apply addDeps_app | now rewrite app_nil_r].
Qed.

Lemma neededDeps_ext (opt : flags) (elf : Elf) (shdr : GElf_Shdr)
      (ei ei' : elfInfo) (dyn : GElf_Dyn) :
  marker ei' = marker ei -> archmarker ei' = archmarker ei ->
  neededDeps opt elf shdr ei' dyn = neededDeps opt elf shdr ei dyn.
Proof.
  intros Hm Ha. unfold neededDeps.
  destruct (d_tag dyn =? DT_NEEDED); [|reflexivity].
  destruct (elf_strptr elf (sh_link shdr) (d_val dyn)); [|reflexivity].
  now apply addDeps_ext.
Qed.

Lemma dynLoop_requires (opt : flags) (elf : Elf) (shdr : GElf_Shdr)
      (data : Elf_Data) (ei0 : elfInfo) (n : nat) :
  forall (i : Z) (ei : elfInfo),
    i + Z.of_nat n <= INT_MAX ->
    genRequires ei = true ->
    marker ei = marker ei0 -> archmarker ei = archmarker ei0 ->
    exists ei',
      dynLoop opt elf shdr data n i ei = Ret ei'
      /\ genRequires ei' = true
      /\ marker ei' = marker ei0 /\ archmarker ei' = archmarker ei0
      /\ requires ei'
         = requires ei
           ++ flat_map (neededDeps opt elf shdr ei0) (dynVisited data n i).
Proof.
  induction n as [|n IH]; intros i ei Hi Hg Hm Ha;
    cbn [dynLoop dynVisited flat_map].
  - exists ei. rewrite app_nil_r. repeat split; assumption.
  - destruct (gelf_getdyn data i) as [dyn|]; cbn [flat_map].
    + assert (E : (i =? INT_MAX) = false) by (apply Z.eqb_neq; lia).
      rewrite E.
      destruct (scan_rel_dynEntry opt elf shdr dyn ei)
        as (_ & X & I & M & A & _).
      destruct (IH (i + 1) (dynEntry opt elf shdr dyn ei))
        as (ei' & R & Hg' & Hm' & Ha' & Hr); try congruence; [lia | |].
      { unfold genRequires in *. now rewrite I, X. }
      exists ei'. repeat split; try assumption.
      rewrite Hr, (@dynEntry_requires opt elf shdr dyn ei Hg), <- app_assoc.
      now rewrite (@neededDeps_ext opt elf shdr ei0 ei dyn Hm Ha).
    + exists ei. rewrite app_nil_r. repeat split; assumption.
Qed.

(** X9: with the requires gate open, the scan of a dynamic section
    appends to requires the lines of its DT_NEEDED entries, in table
    order and nothing else: every entry up to the count in the section
    header or the first unreadable one, hash, soname and debug entries
    contributing nothing. *)
Theorem processDynamic_needed (opt : flags) (elf : Elf) (scn : Elf_Scn)
        (shdr : GElf_Shdr) (ei : elfInfo) :
  0 < sh_entsize shdr ->
  sh_size shdr / sh_entsize shdr <= INT_MAX ->
  genRequires ei = true ->
  exists ei',
    processDynamic opt elf scn shdr ei = Ret ei'
    /\ requires ei'
       = requires ei
         ++ flat_map
              (fun data =>
                 flat_map (neededDeps opt elf shdr ei)
                   (dynVisited data
                      (Z.to_nat (sh_size shdr / sh_entsize shdr)) 0))
              (elf_getdata scn).
Proof.
  intros Hent Hcnt Hg. unfold processDynamic.
  assert (E : (sh_entsize shdr =? 0) = false) by (apply Z.eqb_neq; lia).
  rewrite E.
  assert (Hgen : forall datas e,
             genRequires e = true ->
             marker e = marker ei -> archmarker e = archmarker ei ->
             exists ei',
               foldM (fun e data =>
                        dynLoop opt elf shdr data
                          (Z.to_nat (sh_size shdr / sh_entsize shdr)) 0 e)
                     e datas = Ret ei'
               /\ requires ei'
                  = requires e
                    ++ flat_map
                         (fun data =>
                            flat_map (neededDeps opt elf shdr ei)
                              (dynVisited data
                                 (Z.to_nat (sh_size shdr / sh_entsize shdr))
                                 0)) datas).
  { induction datas as [|data rest IH]; intros e He Hm Ha;
      cbn [foldM flat_map].
    - exists e. now rewrite app_nil_r.
    - destruct (@dynLoop_requires opt elf shdr data ei
                  (Z.to_nat (sh_size shdr / sh_entsize shdr)) 0 e)
        as (e1 & R1 & Hg1 & Hm1 & Ha1 & Hr1); try assumption;
        [unfold INT_MAX in *; lia|].
      rewrite R1; cbn [bind].
      destruct (IH e1 Hg1 Hm1 Ha1) as (ei' & R & Hr).
      exists ei'. split; [exact R|]. now rewrite Hr, Hr1, app_assoc. }
  now apply Hgen.
Qed.

Lemma processDynamic_needed_witness :
  exists ei',
    processDynamic both_passes foo_app foo_dynamic (shdr_of foo_dynamic)
                   ei_x86_64 = Ret ei'
    /\ requires ei'
       = ["libfoo.so.1()(64bit)"; "libfoo.so.1()(x86_64)";
          "libc.so.6()(64bit)"; "libc.so.6()(x86_64)"].
Proof.
  apply (@processDynamic_needed both_passes foo_app foo_dynamic
           (shdr_of foo_dynamic) ei_x86_64);
    [reflexivity | vm_compute; discriminate | reflexivity].
Defined.

(** ** What the scans add *)


Lemma grows_trans (opt : flags) (a b c : ARGV_t) :
  grows opt a b -> grows opt b c -> grows opt a c.
Proof.
  intros (e1 & -> & F1) (e2 & -> & F2). exists (e1 ++ e2).
  split; [now rewrite app_assoc | now apply Forall_app].
Qed.



Lemma scan_ext_trans (opt : flags) (t1 t2 : list Z) (a b c : elfInfo) :
  scan_ext opt t1 a b -> scan_ext opt t2 b c -> scan_ext opt (t1 ++ t2) a c.
Proof.
  unfold scan_ext.
  intros (D1 & S1 & P1 & R1 & O1) (D2 & S2 & P2 & R2 & O2).
  rewrite !has_tag_app, orb_assoc, <- D1.
  repeat split; eauto using grows_trans.
  - intros H. apply orb_false_elim in H. destruct H as [H1 H2].
    now rewrite S2, S1.
  - intros H. now rewrite O2, O1.
Qed.


Lemma scan_ext_nil_r (opt : flags) (t : list Z) (a b c : elfInfo) :
  scan_ext opt t a b -> scan_ext opt [] b c -> scan_ext opt t a c.
Proof.
  intros H1 H2. rewrite <- (app_nil_r t). exact (scan_ext_trans H1 H2).
Qed.
















(** ** The lines of the two lists *)





(** ** The soname that is provided *)





(** ** A run over several paths *)




(** ** The declared soname *)

Lemma dynEntry_soname (opt : flags) (elf : Elf) (shdr : GElf_Shdr)
      (dyn : GElf_Dyn) (ei : elfInfo) :
  soname (dynEntry opt elf shdr dyn ei)
  = sonameStep elf shdr (soname ei) dyn.
Proof.
  unfold dynEntry, sonameStep.
  destruct (d_tag dyn =? DT_HASH) eqn:E1;
    [apply Z.eqb_eq in E1; now rewrite E1|].
  destruct (d_tag dyn =? DT_GNU_HASH) eqn:E2;
    [apply Z.eqb_eq in E2; now rewrite E2|].
  destruct (d_tag dyn =? DT_DEBUG) eqn:E3;
    [apply Z.eqb_eq in E3; now rewrite E3|].
  destruct (d_tag dyn =? DT_SONAME).
  { now destruct (elf_strptr elf (sh_link shdr) (d_val dyn)). }
  destruct (d_tag dyn =? DT_NEEDED); [|reflexivity].
  destruct (genRequires ei); [|reflexivity].
  now destruct (elf_strptr elf (sh_link shdr) (d_val dyn)).
Qed.

Lemma dynLoop_soname (opt : flags) (elf : Elf) (shdr : GElf_Shdr)
      (data : Elf_Data) (n : nat) :
  forall (i : Z) (ei ei' : elfInfo),
    dynLoop opt elf shdr data n i ei = Ret ei' ->
    soname ei'
    = fold_left (sonameStep elf shdr) (dynVisited data n i) (soname ei).
Proof.
  induction n as [|n IH]; intros i ei ei'; cbn [dynLoop dynVisited].
  - intros H; now injection H as <-.
  - destruct (gelf_getdyn data i) as [dyn|].
    + destruct (i =? INT_MAX); [discriminate|]. intros H.
      cbn [fold_left]. rewrite (IH _ _ _ H). now rewrite dynEntry_soname.
    + intros H; now injection H as <-.
Qed.

Lemma processDynamic_soname_fold (opt : flags) (elf : Elf) (scn : Elf_Scn)
      (shdr : GElf_Shdr) (ei ei' : elfInfo) :
  processDynamic opt elf scn shdr ei = Ret ei' ->
  soname ei'
  = fold_left (sonameStep elf shdr) (scnVisited scn shdr) (soname ei).
Proof.
  unfold processDynamic, scnVisited. revert ei.
  induction (elf_getdata scn) as [|data rest IH]; intros ei;
    cbn [foldM flat_map].
  - intros H; now injection H as <-.
  - destruct (sh_entsize shdr =? 0); [discriminate|].
    destruct (dynLoop opt elf shdr data
                (Z.to_nat (sh_size shdr / sh_entsize shdr)) 0 ei)
      as [ei1|] eqn:R1; cbn [bind]; [|discriminate].
    intros H. rewrite fold_left_app, (IH _ H).
    now rewrite (dynLoop_soname _ _ _ _ _ _ _ R1).
Qed.

Lemma sonameStep_others (elf : Elf) (shdr : GElf_Shdr)
      (l : list GElf_Dyn) :
  Forall (fun d => d_tag d <> DT_SONAME
                   \/ elf_strptr elf (sh_link shdr) (d_val d) = None) l ->
  forall acc, fold_left (sonameStep elf shdr) l acc = acc.
Proof.
  induction 1 as [|d l Hd _ IH]; intros acc; cbn [fold_left];
    [reflexivity|].
  rewrite IH. unfold sonameStep. destruct Hd as [Hd | Hd].
  - apply Z.eqb_neq in Hd. now rewrite Hd.
  - rewrite Hd. now destruct (d_tag d =? DT_SONAME).
Qed.

(** X15: the last DT_SONAME entry of a dynamic section whose string
    resolves is the soname after the scan of that section, whatever was
    set before and whatever other entries follow it. *)
Theorem last_soname_wins (opt : flags) (elf : Elf) (scn : Elf_Scn)
        (shdr : GElf_Shdr) (ei : elfInfo) (before after : list GElf_Dyn)
        (dyn : GElf_Dyn) (s : string) :
  0 < sh_entsize shdr ->
  sh_size shdr / sh_entsize shdr <= INT_MAX ->
  scnVisited scn shdr = before ++ dyn :: after ->
  d_tag dyn = DT_SONAME ->
  elf_strptr elf (sh_link shdr) (d_val dyn) = Some s ->
  Forall (fun d => d_tag d <> DT_SONAME
                   \/ elf_strptr elf (sh_link shdr) (d_val d) = None)
         after ->
  exists ei',
    processDynamic opt elf scn shdr ei = Ret ei' /\ soname ei' = Some s.
Proof.
  intros Hent Hcnt Hv Ht Hs Hafter.
  destruct (@processDynamic_scan opt elf scn shdr ei Hent Hcnt)
    as (ei' & R & _).
  exists ei'. split; [exact R|].
  rewrite (processDynamic_soname_fold _ _ _ _ _ R), Hv, fold_left_app.
  cbn [fold_left]. rewrite (sonameStep_others elf shdr Hafter).
  unfold sonameStep. now rewrite Ht, Hs.
Qed.

Lemma last_soname_wins_witness :
  exists ei',
    processDynamic default_flags two_sonames_elf two_sonames
                   (shdr_of two_sonames) ei_zero = Ret ei'
    /\ soname ei' = Some "libfoo.so.1".
Proof.
  apply (@last_soname_wins default_flags two_sonames_elf two_sonames
           (shdr_of two_sonames) ei_zero
           [ {| d_tag := DT_SONAME; d_val := 35 |};
             {| d_tag := DT_SONAME; d_val := 7 |} ]
           [ {| d_tag := DT_SONAME; d_val := 9 |};
             {| d_tag := DT_HASH; d_val := 2048 |};
             {| d_tag := 0; d_val := 0 |} ]
           {| d_tag := DT_SONAME; d_val := 1 |} "libfoo.so.1");
    try reflexivity; try (vm_compute; discriminate).
  constructor; [right; reflexivity|].
  constructor; [left; discriminate|].
  constructor; [left; discriminate | constructor].
Defined.

(** ** Version requirements *)

Lemma verneedAuxLoop_chain (opt : flags) (elf : Elf) (shdr : GElf_Shdr)
      (data : Elf_Data) (so : string) (ei0 : elfInfo)
      (names : list string) :
  soname_only opt = false ->
  forall (auxoffset : Z) (ei : elfInfo),
    vernaux_chain elf shdr data auxoffset names ->
    genRequires ei = true ->
    marker ei = marker ei0 -> archmarker ei = archmarker ei0 ->
    requires (verneedAuxLoop opt elf shdr data (Some so)
                             (List.length names) auxoffset ei)
    = requires ei
      ++ flat_map (fun s => addDeps opt [] ei0 so (Some s)) names.
Proof.
  intros Hso.
  induction names as [|s names IH]; intros auxoffset ei Hch Hg Hm Ha;
    cbn [List.length verneedAuxLoop flat_map].
  - now rewrite app_nil_r.
  - destruct Hch as (aux & Haux & Hs & Hrest).
    rewrite Haux, Hs, Hg, Hso. cbn [negb andb].
    rewrite (IH _ _ Hrest); try assumption.
    cbn [requires set_requires].
    rewrite (addDeps_app opt (requires ei)), <- app_assoc.
    now rewrite (@addDeps_ext opt [] ei0 ei so (Some s) Hm Ha).
Qed.

(** X16: the version requirement scan follows the [vna_next] links:
    with the gate open and soname-only off, a record whose auxiliary
    entries resolve to the names of a chain adds the lines of each name,
    paired with the file name of the record, in chain order. *)
Theorem verneed_walks_chain (opt : flags) (elf : Elf) (shdr : GElf_Shdr)
        (data : Elf_Data) (so : string) (ei : elfInfo) (auxoffset : Z)
        (names : list string) :
  soname_only opt = false ->
  genRequires ei = true ->
  vernaux_chain elf shdr data auxoffset names ->
  requires (verneedAuxLoop opt elf shdr data (Some so)
                           (List.length names) auxoffset ei)
  = requires ei ++ flat_map (fun s => addDeps opt [] ei so (Some s)) names.
Proof.
  intros Hso Hg Hch.
  now apply (@verneedAuxLoop_chain opt elf shdr data so ei names Hso
               auxoffset ei Hch Hg).
Qed.

Lemma verneed_walks_chain_witness :
  requires (verneedAuxLoop default_flags foo_app (shdr_of foo_verneed)
              (data_of foo_verneed) (Some "libfoo.so.1") 2 16 ei_x86_64)
  = ["libfoo.so.1(LIBFOO_1.0)(64bit)"; "libfoo.so.1(LIBFOO_1.1)(64bit)"].
Proof.
  apply (@verneed_walks_chain default_flags foo_app (shdr_of foo_verneed)
           (data_of foo_verneed) "libfoo.so.1" ei_x86_64 16
           ["LIBFOO_1.0"; "LIBFOO_1.1"]); [reflexivity | reflexivity|].
  exists {| vna_name := 13; vna_next := 16 |}.
  split; [reflexivity|]. split; [reflexivity|].
  exists {| vna_name := 24; vna_next := 0 |}.
  split; [reflexivity|]. split; [reflexivity | exact I].
Defined.

(** ** A zero entry size *)

(** X17: when the first section of a shared object or executable is a
    dynamic section with data and a zero [sh_entsize], the loop bound of
    [processDynamic] divides by zero: the scan of the object, and with it
    every run of main that reaches the path, is outside defined
    behaviour, whatever the mode and the flags. *)
Theorem zero_entsize_undefined (opt : flags) (fs : filesystem) (fn : string)
        (dtype : bool) (st_mode : Z) (elf : Elf) (ehdr : GElf_Ehdr)
        (scn : Elf_Scn) (rest : list Elf_Scn) (shdr : GElf_Shdr) :
  object_of fs fn = Some (st_mode, elf, ehdr) ->
  (e_type ehdr =? ET_DYN) || (e_type ehdr =? ET_EXEC) = true ->
  elf_nextscn elf = scn :: rest ->
  gelf_getshdr scn = Some shdr ->
  sh_type shdr = SHT_DYNAMIC ->
  sh_entsize shdr = 0 ->
  elf_getdata scn <> [] ->
  processFile opt fs fn dtype = Undefined
  /\ forall fns, main opt fs dtype (fn :: fns) [] = Undefined.
Proof.
  intros Ho Ht Hn Hsh Hty Hent Hdata.
  assert (E : processFile opt fs fn dtype = Undefined).
  { rewrite (@processFile_object opt fs fn dtype st_mode elf ehdr Ho).
    unfold scanObject, processSections. rewrite Ht, Hn.
    cbn [sectionsLoop]. rewrite Hsh.
    unfold processSection, processDynamic. rewrite Hty, Hent.
    cbn [Z.eqb SHT_DYNAMIC SHT_GNU_verdef SHT_GNU_verneed].
    destruct (elf_getdata scn) as [|data datas]; [contradiction|].
    reflexivity. }
  split; [exact E|]. intros fns. unfold main. cbn [fileLoop].
  now rewrite E.
Qed.

Lemma zero_entsize_undefined_witness :
  processFile default_flags fs2 "/usr/lib64/libzero.so" true = Undefined
  /\ forall fns,
      main default_flags fs2 true ("/usr/lib64/libzero.so" :: fns) []
      = Undefined.
Proof.
  apply (@zero_entsize_undefined default_flags fs2 "/usr/lib64/libzero.so"
           true 420 libzero ehdr_x86_64 zero_entsize_scn []
           (shdr_of zero_entsize_scn)); try reflexivity.
  discriminate.
Defined.

(** ** Where the lines come from *)



























(** A line that passes the filter as a whole is not for that a line of
    provides-mode: "libfoo(.so)(64bit)" would have to be built from the
    name "libfoo", which is filtered out and is no string of the
    object. *)
Lemma provides_line_not_filter_only :
  skipSoname default_flags "libfoo(.so)(64bit)" = false
  /\ ~ provides_line default_flags "/usr/lib64/libfoo.so.1" libfoo
                     ehdr_x86_64 "libfoo(.so)(64bit)".
Proof.
  split; [reflexivity|].
  intros (name & ver & Hk & Hn & _ & Hl).
  cbn in Hl. destruct Hl as [Hl | []].
  assert (Hnames : name = "libfoo.so.1" \/ name = "LIBFOO_1.0"
                   \/ name = "LIBFOO_1.1" \/ name = "libc.so.6"
                   \/ name = "GLIBC_2.2.5").
  { destruct Hn as [(index & offset & Hr) | [_ ->]]; [|now left].
    cbn in Hr. unfold strptr in Hr.
    destruct (index =? 3); [|discriminate]. cbn in Hr.
    repeat match type of Hr with
           | (if ?c then _ else _) = _ =>
               destruct c; [injection Hr as <-; tauto|]
           end.
    discriminate. }
  unfold dep_string, decorated in Hl.
  destruct Hnames as [-> | [-> | [-> | [-> | ->]]]];
    destruct ver; cbn in Hl; discriminate.
Qed.

(** ** The interpreter requirement on an unbounded object *)


(** ** Repeated scans *)




End More.
